(** * Nestie: query routing, conversation history and channel commands

    A shallow embedding of [rag_chatbot.py] and [slack_bot.py].

    Python [str] values are lists of characters.  A character is an
    [ascii]; the embedding interprets the codes 0..127 as in Python and
    treats the remaining codes as opaque symbols (neither letters, digits
    nor white space), which is how the UTF-8 bytes of the emoji of the
    fixed reply strings are carried. *)

From Stdlib Require Import Ascii String DecimalString.
From Stdlib Require Import Arith Bool Lia PeanoNat List Sorted Permutation.
Import ListNotations.

Set Implicit Arguments.
Set Warnings "-abstract-large-number".

(** ** Python strings *)

Module PyStr.

Definition str := list ascii.

(** A literal of the source. *)
Definition py (s : string) : str := list_ascii_of_string s.

Definition code (c : ascii) : nat := nat_of_ascii c.

Definition between (lo hi : nat) (c : ascii) : bool :=
  (lo <=? code c) && (code c <=? hi).

Definition is_upper : ascii -> bool := between 65 90.
Definition is_lower : ascii -> bool := between 97 122.
Definition is_digit : ascii -> bool := between 48 57.

(** [[a-zA-Z0-9]] *)
Definition is_alnum (c : ascii) : bool :=
  is_lower c || is_upper c || is_digit c.

(** [str.isspace] on one character, also the class [\s]:
    TAB..CR, FS..US and the blank. *)
Definition isspace (c : ascii) : bool :=
  between 9 13 c || between 28 32 c.

(** The class [\w]. *)
Definition is_word (c : ascii) : bool :=
  is_alnum c || (code c =? 95).

Definition lower_char (c : ascii) : ascii :=
  if is_upper c then ascii_of_nat (code c + 32) else c.

Definition upper_char (c : ascii) : ascii :=
  if is_lower c then ascii_of_nat (code c - 32) else c.

(** [s.lower()] and [s.upper()] on the characters of the embedding: the
    letters of ASCII change case and every other code is left alone.
    Python also gives an ASCII letter to a few characters outside ASCII
    (the Kelvin sign lower-cases to [k], the long s upper-cases to [S]);
    the statements that such a character would touch are written so that
    they hold with Python's maps as well: a channel reference is
    recognised by its lower-cased id, and the effect of the letter case
    is stated for questions in ASCII. *)
Definition lower (s : str) : str := map lower_char s.
Definition upper (s : str) : str := map upper_char s.

Fixpoint lstrip (s : str) : str :=
  match s with
  | c :: s' => if isspace c then lstrip s' else s
  | [] => []
  end.

Definition rstrip (s : str) : str := rev (lstrip (rev s)).

(** [s.strip()] *)
Definition strip (s : str) : str := rstrip (lstrip s).

Fixpoint startswith (p s : str) : bool :=
  match p, s with
  | [], _ => true
  | a :: p', b :: s' => Ascii.eqb a b && startswith p' s'
  | _ :: _, [] => false
  end.

(** [needle in hay] *)
Fixpoint contains (needle hay : str) : bool :=
  startswith needle hay
  || match hay with
     | [] => false
     | _ :: hay' => contains needle hay'
     end.

(** [sep.join(parts)] *)
Fixpoint join (sep : str) (parts : list str) : str :=
  match parts with
  | [] => []
  | [x] => x
  | x :: rest => x ++ sep ++ join sep rest
  end.

(** [str(n)] for a non-negative integer. *)
Definition str_of_nat (n : nat) : str :=
  py (NilZero.string_of_uint (Nat.to_uint n)).

(** Truth value of a string: [if s:]. *)
Definition truthy (s : str) : bool :=
  match s with [] => false | _ :: _ => true end.

Definition str_eqb (a b : str) : bool :=
  if list_eq_dec ascii_dec a b then true else false.

End PyStr.

Import PyStr.

(** ** The fragment of [re] the source uses *)

Module Re.

(** Repetition only occurs on character classes in the patterns of the
    source, so it is a constructor of its own and matching is structural. *)
Inductive regex : Type :=
| Lit (l : str)
| Star (p : ascii -> bool)
| Plus (p : ascii -> bool)
| Seq (r1 r2 : regex)
| Alt (r1 r2 : regex)
| Grp (n : nat) (r : regex)
| WordB
| Bol
| Eol
| NegLook (r : regex).

(** A match in progress: the groups closed so far, the character before
    the current position ([None] at the start of the text) and the text
    still to read. *)
Record mstate : Type := MState
  { caps : list (nat * str);
    prev : option ascii;
    rest : str }.

Definition chr_eqb (icase : bool) (a b : ascii) : bool :=
  if icase then Ascii.eqb (lower_char a) (lower_char b) else Ascii.eqb a b.

Fixpoint lit_match (icase : bool) (l : str) (pv : option ascii) (s : str)
  : option (option ascii * str) :=
  match l with
  | [] => Some (pv, s)
  | a :: l' =>
      match s with
      | b :: s' => if chr_eqb icase a b then lit_match icase l' (Some b) s' else None
      | [] => None
      end
  end.

(** Greedy repetition: the longest run first, then the shorter ones. *)
Fixpoint star_match (p : ascii -> bool) (cs : list (nat * str))
  (pv : option ascii) (s : str) : list mstate :=
  match s with
  | c :: s' =>
      if p c then star_match p cs (Some c) s' ++ [MState cs pv s]
      else [MState cs pv s]
  | [] => [MState cs pv s]
  end.

Definition word_opt (o : option ascii) : bool :=
  match o with Some c => is_word c | None => false end.

Definition at_boundary (pv : option ascii) (s : str) : bool :=
  xorb (word_opt pv) (word_opt (hd_error s)).

(** [$] without MULTILINE: the end, or just before a final newline. *)
Definition at_eol (s : str) : bool :=
  match s with
  | [] => true
  | [c] => Ascii.eqb c "010"%char
  | _ => false
  end.

(** All the ways [r] matches a prefix of the text of [m], in the order a
    backtracking matcher tries them. *)
Fixpoint rmatch (icase : bool) (r : regex) (m : mstate) : list mstate :=
  match r with
  | Lit l =>
      match lit_match icase l (prev m) (rest m) with
      | Some (pv, s) => [MState (caps m) pv s]
      | None => []
      end
  | Star p => star_match p (caps m) (prev m) (rest m)
  | Plus p =>
      match rest m with
      | c :: s' => if p c then star_match p (caps m) (Some c) s' else []
      | [] => []
      end
  | Seq r1 r2 => flat_map (rmatch icase r2) (rmatch icase r1 m)
  | Alt r1 r2 => rmatch icase r1 m ++ rmatch icase r2 m
  | Grp n r1 =>
      map (fun m' =>
             MState ((n, firstn (length (rest m) - length (rest m')) (rest m))
                       :: caps m')
                    (prev m') (rest m'))
          (rmatch icase r1 m)
  | WordB => if at_boundary (prev m) (rest m) then [m] else []
  | Bol => match prev m with None => [m] | Some _ => [] end
  | Eol => if at_eol (rest m) then [m] else []
  | NegLook r1 =>
      match rmatch icase r1 m with
      | [] => [m]
      | _ :: _ => []
      end
  end.

(** [re.search]: the first match at the leftmost position that has one. *)
Fixpoint search_from (icase : bool) (r : regex) (pv : option ascii) (s : str)
  : option mstate :=
  match rmatch icase r (MState [] pv s) with
  | m :: _ => Some m
  | [] =>
      match s with
      | [] => None
      | c :: s' => search_from icase r (Some c) s'
      end
  end.

Definition search (icase : bool) (r : regex) (s : str) : option mstate :=
  search_from icase r None s.

(** Truth value of a match object. *)
Definition found (o : option mstate) : bool :=
  match o with Some _ => true | None => false end.

(** [m.group(n)] *)
Fixpoint group (n : nat) (cs : list (nat * str)) : option str :=
  match cs with
  | [] => None
  | (k, t) :: cs' => if k =? n then Some t else group n cs'
  end.

(** [(w1|w2|...)] over literal words, as group [n]. *)
Fixpoint alts (ws : list str) : regex :=
  match ws with
  | [] => NegLook (Lit [])
  | [w] => Lit w
  | w :: ws' => Alt (Lit w) (alts ws')
  end.

Definition words (n : nat) (ws : list string) : regex :=
  Grp n (alts (map py ws)).

(** [.] without DOTALL *)
Definition dot (c : ascii) : bool := negb (Ascii.eqb c "010"%char).

Fixpoint seq (rs : list regex) : regex :=
  match rs with
  | [] => Lit []
  | [r] => r
  | r :: rs' => Seq r (seq rs')
  end.

End Re.

(** ** Calls to the outside, and the monad of the two classes *)

(** What a Python call gives back: a value, or an exception with its
    [str(e)]. *)
Inductive outcome (A : Type) : Type :=
| Ok (a : A)
| Raise (msg : str).

Arguments Ok {A} a.
Arguments Raise {A} msg.

(** The calls that leave the process, in the order they are made. *)
Inductive event : Type :=
| RagChainCall (query : str)
| LLMCall (prompt : str)
| ConversationsHistoryCall (channel : str) (time_filter : str)
| UsersInfoCall (user : str).

(** A computation over an object of type [S] that logs its outside calls. *)
Definition M (S A : Type) : Type := S -> A * S * list event.

Definition ret {S A} (a : A) : M S A := fun s => (a, s, []).

Definition bind {S A B} (c : M S A) (k : A -> M S B) : M S B :=
  fun s =>
    let '(a, s1, l1) := c s in
    let '(b, s2, l2) := k a s1 in
    (b, s2, l1 ++ l2).

Definition get {S} : M S S := fun s => (s, s, []).
Definition put {S} (s' : S) : M S unit := fun _ => (tt, s', []).
Definition emit {S} (e : event) : M S unit := fun s => (tt, s, [e]).

Declare Scope py_scope.
Delimit Scope py_scope with py_m.
Notation "x <- c ;; k" := (bind c (fun x => k))
  (at level 61, c at next level, right associativity) : py_scope.
Notation "c ;;; k" := (bind c (fun _ => k))
  (at level 61, right associativity) : py_scope.

Definition value {S A} (r : A * S * list event) : A := fst (fst r).
Definition final {S A} (r : A * S * list event) : S := snd (fst r).
Definition calls {S A} (r : A * S * list event) : list event := snd r.

(** ** Dictionaries with string keys *)

Module PyDict.

(** The values the dictionaries of the source hold. *)
Inductive pyval : Type :=
| VBool (b : bool)
| VInt (n : nat)
| VStr (s : str)
| VList (l : list str).

Definition dict : Type := list (str * pyval).

(** [d[key]], which raises [KeyError] on a key that is not there. *)
Fixpoint getitem (d : dict) (key : str) : outcome pyval :=
  match d with
  | [] => Raise (py "'" ++ key ++ py "'")
  | (k, v) :: d' => if str_eqb k key then Ok v else getitem d' key
  end.

End PyDict.

(** ** Computations that may raise *)

Definition retE {S A} (a : A) : M S (outcome A) := ret (Ok a).

(** Sequencing stops at the first exception. *)
Definition bindE {S A B} (c : M S (outcome A)) (k : A -> M S (outcome B))
  : M S (outcome B) :=
  bind c (fun r => match r with
                   | Ok a => k a
                   | Raise e => ret (Raise e)
                   end).

(** [try: c  except Exception as e: handler(e)] *)
Definition try_except {S A} (c : M S (outcome A))
  (handler : str -> M S (outcome A)) : M S (outcome A) :=
  bind c (fun r => match r with
                   | Ok a => ret (Ok a)
                   | Raise e => handler e
                   end).

Notation "x <-- c ;; k" := (bindE c (fun x => k))
  (at level 61, c at next level, right associativity) : py_scope.

(** ** config.py *)

Module Config.
Definition MAX_HISTORY_LENGTH : nat := 10.
End Config.

(** ** rag_chatbot.py *)

Module RAGChatbot.

Import Re.
Local Open Scope py_scope.

(** The three routes, ["rag"], ["general"] and ["mixed"]. *)
Inductive query_type : Type := rag | general | mixed.

(** [datetime.now()] is read from the caller; the router never looks at it. *)
Definition datetime := nat.

Record entry : Type := Entry
  { timestamp : datetime;
    question : str;
    answer : str;
    entry_type : query_type }.

Record chatbot : Type := Chatbot
  { loaded_documents : list str;
    is_ready : bool;
    conversation_history : list entry;
    max_history_length : nat;
    last_query_type : option query_type;
    document_keywords : list str }.

(** The fixed vocabulary of [_setup_classification_patterns]. *)
Definition base_keywords : list str :=
  map py
    [ "document"; "doc"; "file"; "paper"; "text"; "pdf"; "summarize";
      "summary"; "main topic"; "key points"; "information"; "data";
      "content"; "source"; "reference"; "what does"; "according to";
      "mentioned in"; "states that"; "chapter"; "section"; "page";
      "paragraph"; "policy"; "rule" ]%string.

Definition setup_document_keywords (docs : list str) : list str :=
  base_keywords ++ map lower docs.

Definition general_patterns : list regex :=
  [ seq [WordB;
         words 1 ["hello"; "hi"; "hey"; "good morning"; "good afternoon";
                  "good evening"]%string;
         WordB];
    seq [WordB; words 1 ["how are you"; "what's up"; "how's it going"]%string; WordB];
    seq [WordB; words 1 ["thank you"; "thanks"; "appreciate"]%string; WordB];
    seq [WordB; words 1 ["goodbye"; "bye"; "see you"; "talk to you later"]%string;
         WordB];
    seq [WordB;
         words 1 ["who are you"; "what are you"; "tell me about yourself"]%string;
         WordB];
    seq [WordB; words 1 ["can you help"; "help me"]%string; WordB;
         NegLook (seq [Star dot; WordB; words 2 ["document"; "file"; "pdf"]%string;
                       WordB])];
    seq [Bol; Star isspace;
         words 1 ["yes"; "no"; "okay"; "ok"; "sure"; "maybe"; "perhaps"]%string;
         Star isspace; Eol];
    seq [WordB; words 1 ["weather"; "time"; "date"; "joke"; "story"]%string; WordB] ].

Definition continuation_patterns : list regex :=
  [ seq [WordB;
         words 1 ["also"; "and"; "furthermore"; "additionally"; "moreover"]%string;
         WordB];
    seq [WordB; words 1 ["what about"; "how about"; "tell me more"]%string; WordB];
    seq [WordB; words 1 ["continue"; "more"; "further"; "elaborate"]%string; WordB];
    seq [WordB; words 1 ["that"; "this"; "it"; "they"]%string; WordB];
    seq [Bol; Star isspace;
         words 1 ["and"; "but"; "however"; "although"; "though"]%string; WordB] ].

(** [any(re.search(p, text, re.IGNORECASE) for p in patterns)] *)
Definition any_search (patterns : list regex) (text : str) : bool :=
  existsb (fun p => found (search true p text)) patterns.

Definition is_continuation (question_lower : str) : bool :=
  any_search continuation_patterns question_lower.

Definition is_general (question_lower : str) : bool :=
  any_search general_patterns question_lower.

(** [sum(1 for keyword in self.document_keywords if keyword in question_lower)] *)
Definition doc_score (keywords : list str) (question_lower : str) : nat :=
  length (filter (fun keyword => contains keyword question_lower) keywords).

Definition classify_query (self : chatbot) (question : str) : query_type :=
  let question_lower := strip (lower question) in
  match is_continuation question_lower, last_query_type self with
  | true, Some last => last
  | _, _ =>
      if is_general question_lower then general
      else
        let score := doc_score (document_keywords self) question_lower in
        if 2 <=? score then rag
        else if score =? 1 then mixed
        else general
  end.

Definition set_history (self : chatbot) (h : list entry) : chatbot :=
  Chatbot (loaded_documents self) (is_ready self) h
          (max_history_length self) (last_query_type self)
          (document_keywords self).

Definition set_last_query_type (self : chatbot) (q : query_type) : chatbot :=
  Chatbot (loaded_documents self) (is_ready self) (conversation_history self)
          (max_history_length self) (Some q) (document_keywords self).

(** [list.append] followed by [pop(0)] when the list got too long. *)
Definition add_to_history (now : datetime) (question answer : str)
  (qt : query_type) (self : chatbot) : chatbot :=
  let appended := conversation_history self ++ [Entry now question answer qt] in
  if max_history_length self <? length appended
  then set_history self (tl appended)
  else set_history self appended.

(** [l[-limit:]] for a positive [limit]. *)
Definition last_n {A} (limit : nat) (l : list A) : list A :=
  skipn (length l - limit) l.

Definition newline : str := ["010"%char].

Definition get_conversation_context (self : chatbot) (current_question : str)
  (limit : nat) : str :=
  match conversation_history self with
  | [] => []
  | _ :: _ =>
      let recent_history := last_n limit (conversation_history self) in
      let context_parts :=
        flat_map (fun e => [py "Previous Q: " ++ question e;
                            py "Previous A: " ++ answer e])
                 recent_history in
      let context := join newline context_parts in
      py "Conversation context:" ++ newline ++ context ++ newline ++ newline
        ++ py "Current question: " ++ current_question
  end.

(** *** The services behind the router *)

(** What [self.rag_chain({"query": q})] returns: the generated text and,
    for each retrieved passage, the [document_name] of its metadata when
    it has one. *)
Record chain_output : Type := ChainOutput
  { result : str;
    source_documents : list (option str) }.

(** The retrieval chain and the language model are functions of their
    argument for the duration of one request; both may raise. *)
Class LangChain : Type :=
  { rag_chain : str -> outcome chain_output;
    llm : str -> outcome str }.

(** The order in which Python enumerates the set built from the given
    elements.  Nothing is assumed about it. *)
Class PySet : Type :=
  { iter_str : list str -> list str;
    iter_int : list nat -> list nat }.

Section Router.

Context {services : LangChain} {sets : PySet}.

Definition no_information : str :=
  py "I don't find any relevant information in the available documents".

Definition comma : str := py ", ".

Definition ask_rag (question : str) : M chatbot str :=
  self <- get ;;
  let contextual_query :=
    match conversation_history self with
    | [] => question
    | _ :: _ => get_conversation_context self question 2
    end in
  emit (RagChainCall contextual_query) ;;;
  match rag_chain contextual_query with
  | Raise e =>
      ret (py "Sorry, I encountered an error processing your question: " ++ e)
  | Ok out =>
      let answer := strip (result out) in
      if negb (truthy answer) then ret no_information
      else
        match source_documents out with
        | [] => ret answer
        | _ :: _ =>
            let names :=
              map (fun d => match d with
                            | Some doc_name => doc_name
                            | None => py "Unknown"
                            end)
                  (source_documents out) in
            ret (answer ++ newline ++ newline ++ py "_Sources: "
                   ++ join comma (iter_str names) ++ py "_")
        end
  end.

(** [self.general_prompt.format(question=q)] *)
Definition general_prompt_format (q : str) : str :=
  join newline
    [ [];
      py "You are a friendly AI assistant. Respond naturally and conversationally.";
      py "Be helpful, engaging, and personable.";
      [];
      py "For Slack formatting:";
      py "- Use *text* for bold (not **text**" ++ py ")  ";
      py "- Use _text_ for italic";
      py "- Use • or - for bullet points (not *" ++ py ")";
      [];
      py "User: " ++ q;
      py "Assistant: " ].

Definition ask_general (question : str) : M chatbot str :=
  self <- get ;;
  let formatted_prompt :=
    match conversation_history self with
    | [] => general_prompt_format question
    | _ :: _ =>
        general_prompt_format (get_conversation_context self question 2)
    end in
  emit (LLMCall formatted_prompt) ;;;
  match llm formatted_prompt with
  | Ok response => ret (strip response)
  | Raise e => ret (py "Sorry, I encountered an error: " ++ e)
  end.

(** The test of [ask_mixed] on the answer of the document route. *)
Definition found_nothing (rag_result : str) : bool :=
  contains (py "don't find any relevant information") (lower rag_result).

Definition suggestion (self : chatbot) : str :=
  newline ++ newline
    ++ py "💡 _If you're looking for specific information, try asking about: "
    ++ join comma (loaded_documents self) ++ py "_".

Definition ask_mixed (question : str) : M chatbot str :=
  rag_result <- ask_rag question ;;
  if negb (found_nothing rag_result) then ret rag_result
  else
    general_response <- ask_general question ;;
    self <- get ;;
    ret (general_response ++ suggestion self).

Definition not_ready : str := py "❌ System not ready".

Definition please_ask : str :=
  py "Please ask me something! I can help with documents or just chat.".

Definition ask (now : datetime) (question : str) : M chatbot str :=
  self <- get ;;
  if negb (is_ready self) then ret not_ready
  else if negb (truthy (strip question)) then ret please_ask
  else
    let qt := classify_query self question in
    answer <- match qt with
              | rag => ask_rag question
              | general => ask_general question
              | mixed => ask_mixed question
              end ;;
    self1 <- get ;;
    put (add_to_history now question answer qt self1) ;;;
    self2 <- get ;;
    put (set_last_query_type self2 qt) ;;;
    ret answer.

End Router.

(** [RAGChatbot(vectorstore, loaded_documents)], with [ready] telling
    whether [_setup_chains] went through. *)
Definition init (docs : list str) (ready : bool) : chatbot :=
  Chatbot docs ready [] Config.MAX_HISTORY_LENGTH None
          (setup_document_keywords docs).

(** [get_status]: the dictionary it returns, key by key. *)
Definition get_status (self : chatbot) : PyDict.dict :=
  [ (py "ready", PyDict.VBool (is_ready self));
    (py "documents", PyDict.VList (loaded_documents self));
    (py "document_count", PyDict.VInt (length (loaded_documents self)));
    (py "conversation_history_length",
     PyDict.VInt (length (conversation_history self)));
    (py "capabilities",
     PyDict.VList [py "Natural conversation"; py "Document Q&A";
                   py "Smart routing"]) ].

End RAGChatbot.

(** ** slack_bot.py *)

Module SlackRAGBot.

Import Re.
Local Open Scope py_scope.

(** The part of a [datetime] the bot reads: its place in time (the sort
    key) and the hour and minute of its local wall-clock time. *)
Record stamp : Type := Stamp
  { posix : nat;
    hour : nat;
    minute : nat }.

(** A message as [_get_channel_messages] hands it on. *)
Record message : Type := Message
  { text : str;
    user : str;
    timestamp : stamp;
    reactions : list str }.

(** A message as the Slack API returns it; [text] and [user] may be absent. *)
Record raw_message : Type := RawMessage
  { raw_text : option str;
    raw_user : option str;
    raw_ts : stamp;
    raw_reactions : list str }.

(** The Slack client.  [conversations_history] receives the time filter
    in place of the [oldest] bound the bot derives from it and the clock;
    [users_info] gives the [display_name] of the user when it has one. *)
Class SlackClient : Type :=
  { conversations_history : str -> str -> outcome (list raw_message);
    users_info : str -> outcome (option str) }.

Record slackbot : Type := SlackBot
  { rag_chatbot : option RAGChatbot.chatbot;
    is_ready : bool;
    slack_client : bool }.

(** [SlackRAGBot(rag_chatbot, slack_client)] *)
Definition init (bot : option RAGChatbot.chatbot) (client : bool) : slackbot :=
  SlackBot bot
           (match bot with Some b => RAGChatbot.is_ready b | None => false end)
           client.

Record command : Type := Command
  { channel_id : str;
    command_type : str;
    time_filter : str;
    original_query : str }.

(** [<#([a-zA-Z0-9]+)\|>] *)
Definition channel_re : regex :=
  seq [Lit (py "<#"); Grp 1 (Plus is_alnum); Lit (py "|>")].

(** The words that make a command an activity request.  The first entry
    is one string: the source writes two adjacent literals. *)
Definition activity_words : list str :=
  [ py "analyze" ++ py "recent";
    py "activity";
    py "overview";
    py "happen";
    py "happening";
    py "happened" ].

Definition _parse_channel_command (question : str) : option command :=
  let question_lower := strip (lower question) in
  match search false channel_re question_lower with
  | None => None
  | Some channel_match =>
      (* group 1 takes part in every match of [channel_re] *)
      let g := match group 1 (caps channel_match) with
               | Some t => t
               | None => []
               end in
      let channel_id := upper g in
      let command_type :=
        if existsb (fun word => contains word question_lower) activity_words
        then py "activity" else py "summarize" in
      let time_filter :=
        if contains (py "yesterday") question_lower then py "yesterday"
        else if contains (py "week") question_lower then py "week"
        else if contains (py "month") question_lower then py "month"
        else py "today" in
      Some (Command channel_id command_type time_filter question)
  end.

Definition pad2 (n : nat) : str :=
  if n <? 10 then py "0" ++ str_of_nat n else str_of_nat n.

(** [f"[{timestamp}] {msg['user']}: {msg['text']}"] with
    [timestamp = msg["timestamp"].strftime("%H:%M")] *)
Definition format_message (msg : message) : str :=
  py "[" ++ pad2 (hour (timestamp msg)) ++ py ":" ++ pad2 (minute (timestamp msg))
    ++ py "] " ++ user msg ++ py ": " ++ text msg.

(** The loop over [reversed(formatted)], which stops at the first message
    that does not fit. *)
Fixpoint take_recent (newest_first : list str) (recent_text : str) : str :=
  match newest_first with
  | [] => recent_text
  | msg :: older =>
      if length (recent_text ++ msg) <? 8000
      then take_recent older (msg ++ RAGChatbot.newline ++ recent_text)
      else recent_text
  end.

Definition _format_messages_for_analysis (messages : list message) : str :=
  let formatted := map format_message messages in
  let full_text := join RAGChatbot.newline formatted in
  if 8000 <? length full_text
  then take_recent (rev formatted) []
  else full_text.

(** [max(xs, key=key)]: the first of the largest; [None] stands for the
    [ValueError] on an empty argument. *)
Fixpoint py_max {A} (key : A -> nat) (xs : list A) : option A :=
  match xs with
  | [] => None
  | x :: xs' =>
      match py_max key xs' with
      | Some y => if key x <? key y then Some y else Some x
      | None => Some x
      end
  end.

Definition count_where {A} (p : A -> bool) (l : list A) : nat :=
  length (filter p l).

(** [sorted(messages, key=lambda x: x["timestamp"])]: a stable sort. *)
Fixpoint insert_sorted (m : message) (l : list message) : list message :=
  match l with
  | [] => [m]
  | x :: l' =>
      if posix (timestamp m) <? posix (timestamp x)
      then m :: l
      else x :: insert_sorted m l'
  end.

Definition sorted_by_timestamp (l : list message) : list message :=
  fold_left (fun acc m => insert_sorted m acc) l [].

Section Bot.

Context {services : RAGChatbot.LangChain} {sets : RAGChatbot.PySet}
        {client : SlackClient}.

Definition unknown_user : str := py "Unknown User".

Definition _get_user_info (user_id : str) : M slackbot str :=
  if str_eqb user_id (py "Unknown") then ret unknown_user
  else
    emit (UsersInfoCall user_id) ;;;
    match users_info user_id with
    | Ok (Some display_name) => ret display_name
    | Ok None => ret unknown_user
    | Raise _ => ret unknown_user
    end.

(** The loop over [response["messages"]]. *)
Fixpoint collect_messages (raw : list raw_message) : M slackbot (list message) :=
  match raw with
  | [] => ret []
  | msg :: raw' =>
      match raw_text msg with
      | Some t =>
          if truthy (strip t) then
            user_info <- _get_user_info
                           (match raw_user msg with
                            | Some u => u
                            | None => py "Unknown"
                            end) ;;
            others <- collect_messages raw' ;;
            ret (Message t user_info (raw_ts msg) (raw_reactions msg) :: others)
          else collect_messages raw'
      | None => collect_messages raw'
      end
  end.

Definition _get_channel_messages (channel_id time_filter : str)
  : M slackbot (outcome (list message)) :=
  self <- get ;;
  if negb (slack_client self) then ret (Raise (py "Slack client not configured"))
  else if negb (truthy channel_id) then ret (Ok [])
  else
    emit (ConversationsHistoryCall channel_id time_filter) ;;;
    match conversations_history channel_id time_filter with
    | Raise _ => ret (Ok [])
    | Ok raw =>
        messages <- collect_messages raw ;;
        ret (Ok (sorted_by_timestamp messages))
    end.

Definition no_activity (time_filter : str) : str :=
  py "📭 No activity found in the channel for " ++ time_filter ++ py ".".

Definition no_messages (time_filter : str) : str :=
  py "📭 No messages found in the channel for " ++ time_filter ++ py ".".

Definition bullet : str := py "• ".

(** One line of the highlights: the text cut at 100 characters. *)
Definition highlight (msg : message) : str :=
  RAGChatbot.newline ++ bullet ++ user msg ++ py ": " ++ firstn 100 (text msg)
    ++ (if 100 <? length (text msg) then py "..." else []).

Definition _analyze_activity (channel_id : str) (messages : list message)
  (time_filter : str) : M slackbot (outcome str) :=
  match messages with
  | [] => ret (Ok (no_activity time_filter))
  | _ :: _ =>
      let users := map user messages in
      let total_messages := length messages in
      let unique_users := length (nodup (list_eq_dec ascii_dec) users) in
      let hours := map (fun m => hour (timestamp m)) messages in
      match py_max (fun u => count_where (str_eqb u) users) (RAGChatbot.iter_str users),
            py_max (fun h => count_where (Nat.eqb h) hours) (RAGChatbot.iter_int hours)
      with
      | Some most_active_user, Some peak_hour =>
          let activity_summary :=
            join RAGChatbot.newline
              [ py "📈 *Activity Summary* (" ++ time_filter ++ py "):";
                [];
                bullet ++ py "*" ++ str_of_nat total_messages ++ py "* total messages";
                bullet ++ py "*" ++ str_of_nat unique_users ++ py "* active participants";
                bullet ++ py "Most active: *" ++ most_active_user ++ py "*";
                bullet ++ py "Peak activity: *" ++ str_of_nat peak_hour ++ py ":00*";
                [];
                py "Recent highlights:" ] in
          let recent_messages :=
            if 3 <=? length messages then RAGChatbot.last_n 3 messages
            else messages in
          ret (Ok (activity_summary ++ concat (map highlight recent_messages)))
      | _, _ => ret (Raise (py "max() arg is an empty sequence"))
      end
  end.

(** Run a method of the chatbot object the bot holds. *)
Definition on_chatbot {A} (c : M RAGChatbot.chatbot A) : M slackbot (outcome A) :=
  fun self =>
    match rag_chatbot self with
    | Some bot =>
        let '(a, bot', l) := c bot in
        (Ok a, SlackBot (Some bot') (is_ready self) (slack_client self), l)
    | None => (Raise (py "'NoneType' object has no attribute 'ask'"), self, [])
    end.

Definition indent : str := py "        ".

Definition summary_prompt (time_filter message_text : str) : str :=
  join RAGChatbot.newline
    [ [];
      indent ++ py "Please provide a concise summary of the following Slack channel conversation ("
        ++ time_filter ++ py "):";
      [];
      indent ++ message_text;
      [];
      indent ++ py "Focus on:";
      indent ++ py "- Main topics discussed";
      indent ++ py "- Key decisions or announcements";
      indent ++ py "- Important questions or issues raised";
      indent ++ py "- Action items mentioned";
      indent ].

Definition _summarize_channel (now : RAGChatbot.datetime) (channel_id : str)
  (messages : list message) (time_filter : str) : M slackbot (outcome str) :=
  match messages with
  | [] => ret (Ok (no_messages time_filter))
  | _ :: _ =>
      let message_text := _format_messages_for_analysis messages in
      r <- on_chatbot (RAGChatbot.ask now (summary_prompt time_filter message_text)) ;;
      match r with
      | Raise e => ret (Raise e)
      | Ok summary =>
          ret (Ok (py "📊 *Channel Summary* (" ++ time_filter ++ py "):"
                     ++ RAGChatbot.newline ++ RAGChatbot.newline ++ summary
                     ++ RAGChatbot.newline ++ RAGChatbot.newline
                     ++ py "_Analyzed " ++ str_of_nat (length messages)
                     ++ py " messages_"))
      end
  end.

Definition no_access : str :=
  py "I couldn't find any recent messages in that channel or I don't have access to it.".

Definition channel_error : str :=
  py "😅 Sorry, I encountered an error processing the channel command. Please try again or contact support.".

Definition _handle_channel_command (now : RAGChatbot.datetime) (cmd : command)
  : M slackbot str :=
  got <- _get_channel_messages (channel_id cmd) (time_filter cmd) ;;
  match got with
  | Raise _ => ret channel_error
  | Ok [] => ret no_access
  | Ok messages =>
      r <- (if str_eqb (command_type cmd) (py "activity")
            then _analyze_activity (channel_id cmd) messages (time_filter cmd)
            else _summarize_channel now (channel_id cmd) messages (time_filter cmd)) ;;
      match r with
      | Ok reply => ret reply
      | Raise _ => ret channel_error
      end
  end.

Definition system_not_ready : str :=
  py "🚫 Sorry, the document system is not ready yet. Please contact an admin.".

Definition rephrase : str :=
  py "🤔 Please try rephrasing your question so that I can understand you better.".

Definition answer_error : str :=
  py "😅 Sorry, I encountered an error. Please try again or contact support.".

Definition get_answer (now : RAGChatbot.datetime) (question : str) : M slackbot str :=
  self <- get ;;
  if negb (is_ready self) then ret system_not_ready
  else
    match _parse_channel_command question with
    | Some channel_command => _handle_channel_command now channel_command
    | None =>
        r <- on_chatbot (RAGChatbot.ask now question) ;;
        match r with
        | Raise _ => ret answer_error
        | Ok answer =>
            if contains (py "Error:") answer then ret (py "❌ " ++ answer)
            else if contains RAGChatbot.no_information answer then ret rephrase
            else ret answer
        end
    end.

End Bot.

End SlackRAGBot.

(** ** document_processor.py *)

Module DocumentProcessor.

(** A page or a chunk: its text and the two metadata keys the processor
    sets. *)
Record document : Type := Document
  { page_content : str;
    document_name : option str;
    source : option str }.

(** What the processor asks of the file system, the PDF loader, the text
    splitter and the vector database.  [open_database] gives the
    database found in the persist directory with the count of its
    collection; [store_truthy] is the truth value of a database object. *)
Class Indexing : Type :=
  { store : Type;
    store_truthy : store -> bool;
    path_exists : str -> bool;
    load_pdf : str -> outcome (list document);
    split_documents : list document -> outcome (list document);
    open_database : outcome (store * nat);
    create_database : list document -> outcome store }.

Section Processor.

Context {indexing : Indexing}.

Record processor : Type := Processor
  { document_paths : list (str * str);
    loaded_documents : list str;
    vectorstore : option store }.

Definition load_single_document (doc_name doc_path : str) : list document :=
  if negb (path_exists doc_path) then []
  else
    match load_pdf doc_path with
    | Raise _ => []
    | Ok [] => []
    | Ok documents =>
        let tagged :=
          map (fun doc => Document (page_content doc) (Some doc_name)
                                   (Some doc_path))
              documents in
        match split_documents tagged with
        | Ok chunks => chunks
        | Raise _ => []
        end
    end.

(** The loop over [self.document_paths.items()], with its two lists. *)
Definition load_all_documents (self : processor) : list document * list str :=
  fold_left
    (fun acc item =>
       let '(all_chunks, successful_docs) := acc in
       let '(doc_name, doc_path) := item in
       match load_single_document doc_name doc_path with
       | [] => (all_chunks, successful_docs)
       | chunks => (all_chunks ++ chunks, successful_docs ++ [doc_name])
       end)
    (document_paths self) ([], []).

Definition create_vector_database (document_chunks : list document)
  : option store :=
  match create_database document_chunks with
  | Ok vectorstore => Some vectorstore
  | Raise _ => None
  end.

Definition load_existing_database : option store :=
  match open_database with
  | Ok (vectorstore, collection_count) =>
      if 0 <? collection_count then Some vectorstore else None
  | Raise _ => None
  end.

(** [if self.vectorstore:] *)
Definition has_store (v : option store) : bool :=
  match v with
  | Some vectorstore => store_truthy vectorstore
  | None => false
  end.

Definition set_vectorstore (self : processor) (v : option store) : processor :=
  Processor (document_paths self) (loaded_documents self) v.

Definition set_loaded_documents (self : processor) (docs : list str) : processor :=
  Processor (document_paths self) docs (vectorstore self).

(** The value returned and the processor afterwards. *)
Definition setup_documents (self : processor) : bool * processor :=
  let self1 := set_vectorstore self load_existing_database in
  if has_store (vectorstore self1)
  then (true, set_loaded_documents self1 (map fst (document_paths self1)))
  else
    let '(all_chunks, successful_docs) := load_all_documents self1 in
    match all_chunks with
    | [] => (false, self1)
    | _ :: _ =>
        let self2 := set_vectorstore self1 (create_vector_database all_chunks) in
        if negb (has_store (vectorstore self2)) then (false, self2)
        else (true, set_loaded_documents self2 successful_docs)
    end.

End Processor.

End DocumentProcessor.

(** ** slack_handlers.py *)

Module SlackHandlers.

Import RAGChatbot SlackRAGBot.
Local Open Scope py_scope.

(** A message or event of Slack, as far as the handlers read it: its
    ["user"] and ["text"] keys, either of which may be missing. *)
Record slack_event : Type := SlackEvent
  { ev_user : option str;
    ev_text : option str }.

(** [say(text)] posts to the conversation; it raises when Slack refuses,
    with the given [str(e)]. *)
Class Gateway : Type :=
  { say_fails : str -> option str }.

(** What a handler works on: the [slack_bot] it was registered with
    ([None] when there is none) and the messages posted so far. *)
Record hstate : Type := HState
  { bot : option slackbot;
    outbox : list str }.

Section Handlers.

Context {services : LangChain} {sets : PySet} {client : SlackClient}
        {gateway : Gateway}.

Definition say (text : str) : M hstate (outcome unit) :=
  fun st =>
    match say_fails text with
    | Some e => (Raise e, st, [])
    | None => (Ok tt, HState (bot st) (outbox st ++ [text]), [])
    end.

(** [event[key]] *)
Definition key_of (field : option str) (key : string) : M hstate (outcome str) :=
  match field with
  | Some v => retE v
  | None => ret (Raise (py "'" ++ py key ++ py "'"))
  end.

(** Run a method of the bot the handlers share. *)
Definition on_bot {A} (b : slackbot) (c : M slackbot A) : M hstate A :=
  fun st =>
    let '(a, b', l) := c b in (a, HState (Some b') (outbox st), l).

(** [slack_bot and slack_bot.is_ready], with the bot when it holds. *)
Definition ready_bot (st : hstate) : option slackbot :=
  match bot st with
  | Some b => if SlackRAGBot.is_ready b then Some b else None
  | None => None
  end.

Definition status_ready_text (document_count : nat) (documents : list str) : str :=
  join newline
    [ [];
      py "📊 *System Status*";
      [];
      py "✅ Status: Ready";
      py "📚 Documents loaded: " ++ str_of_nat document_count;
      py "📄 Available documents: " ++ join comma documents;
      [];
      py "Ready to answer your questions!";
      [] ].

Definition status_not_ready_text : str :=
  join newline
    [ [];
      py "📊 *System Status*";
      [];
      py "❌ Status: Not Ready";
      py "The document system is currently unavailable. Please contact an admin.";
      [] ].

Definition status_trouble : str :=
  py "I'm having trouble checking the system status right now. Please try again later!".

(** The ready branch of [handle_status]: the text of the f-string. *)
Definition status_text_of (b : slackbot) : M hstate (outcome str) :=
  match rag_chatbot b with
  | None => ret (Raise (py "'NoneType' object has no attribute 'get_status'"))
  | Some chatbot =>
      let status := get_status chatbot in
      match PyDict.getitem status (py "document_count") with
      | Raise e => ret (Raise e)
      | Ok count =>
          match PyDict.getitem status (py "loaded_documents") with
          | Raise e => ret (Raise e)
          | Ok docs =>
              match count, docs with
              | PyDict.VInt n, PyDict.VList l => retE (status_ready_text n l)
              | _, _ => ret (Raise (py "can only join an iterable"))
              end
          end
      end
  end.

Definition handle_status (message : slack_event) : M hstate (outcome unit) :=
  try_except
    (st <- get ;;
     status_text <-- match ready_bot st with
                     | Some b =>
                         status_text <-- status_text_of b ;;
                         _ <-- key_of (ev_user message) "user" ;;
                         retE status_text
                     | None =>
                         _ <-- key_of (ev_user message) "user" ;;
                         retE status_not_ready_text
                     end ;;
     say status_text)
    (fun _ => say status_trouble).

(** [text.split(">", 1)[-1]] *)
Fixpoint after_first_gt (text : str) : option str :=
  match text with
  | [] => None
  | c :: text' => if Ascii.eqb c ">" then Some text' else after_first_gt text'
  end.

Definition split_mention (text : str) : str :=
  match after_first_gt text with
  | Some tail => tail
  | None => text
  end.

Definition at_user (user : str) : str := py "<@" ++ user ++ py "> ".

Definition handle_mention (now : datetime) (event : slack_event)
  : M hstate (outcome unit) :=
  try_except
    (text <-- key_of (ev_text event) "text" ;;
     user <-- key_of (ev_user event) "user" ;;
     let mention_text := strip (split_mention text) in
     if truthy mention_text then
       st <- get ;;
       match ready_bot st with
       | Some b =>
           answer <- on_bot b (get_answer now mention_text) ;;
           say (at_user user ++ answer)
       | None =>
           say (at_user user
                  ++ py "Sorry, the document system is not ready yet. Please contact the admin.")
       end
     else say (at_user user ++ py "👋 Hi, you can ask me any question!"))
    (fun _ =>
       try_except
         (user <-- key_of (ev_user event) "user" ;;
          say (at_user user ++ py "Sorry, I encountered an error. Please try again!"))
         (fun _ => retE tt)).

Definition reserved : list str := [py "hello"; py "help"; py "status"].

Definition ask_specific : str := py "🤔 Please ask me a specific question!".

Definition admin_not_ready : str :=
  py "🚫 Sorry, the document system is not ready yet. Please contact the admin.".

Definition sorry_error : str :=
  py "😅 Sorry, I encountered an error. Please try again or contact support.".

(** When ["user"] is missing the handler of the exception reads the
    local [user] that was never bound, and that exception leaves the
    handler. *)
Definition handle_direct_message (now : datetime) (message : slack_event)
  : M hstate (outcome unit) :=
  match ev_user message with
  | None =>
      ret (Raise (py "cannot access local variable 'user' where it is not associated with a value"))
  | Some user =>
      try_except
        (raw <-- key_of (ev_text message) "text" ;;
         let text := strip raw in
         if existsb (str_eqb (lower text)) reserved then retE tt
         else if negb (truthy text) then say ask_specific
         else
           st <- get ;;
           match ready_bot st with
           | Some b =>
               answer <- on_bot b (get_answer now text) ;;
               say (at_user user ++ answer)
           | None => say admin_not_ready
           end)
        (fun _ =>
           try_except (say (at_user user ++ sorry_error)) (fun _ => retE tt))
  end.

End Handlers.

End SlackHandlers.

(** ** Notions used to state the properties *)

Module Props.

Import RAGChatbot.

(** The arguments of one call of [add_to_history], with the clock it reads. *)
Definition turn : Type := (datetime * str * str * query_type)%type.

Definition entry_of (t : turn) : entry :=
  let '(now, q, a, qt) := t in Entry now q a qt.

(** A sequence of calls of [add_to_history], oldest first. *)
Definition appends (turns : list turn) (self : chatbot) : chatbot :=
  fold_left (fun bot t => let '(now, q, a, qt) := t in
                          add_to_history now q a qt bot)
            turns self.

(** The configured keywords that occur in the text, each counted once. *)
Definition distinct_keywords (keywords : list str) (text : str) : list str :=
  nodup (list_eq_dec ascii_dec)
        (filter (fun keyword => contains keyword text) keywords).

(** A channel reference [<#ID|>]: the [ID] is not empty and, once
    lower-cased as the parser lower-cases the message, is made of the
    letters [a-z] and the digits only. *)
Definition channel_token (t : str) : Prop :=
  exists id, id <> [] /\ forallb is_alnum (lower id) = true
             /\ t = py "<#" ++ id ++ py "|>".

Definition has_channel_token (msg : str) : Prop :=
  exists pre t post, channel_token t /\ msg = pre ++ t ++ post.

(** The text made of the given lines, each followed by a newline. *)
Definition lines (kept : list str) : str :=
  concat (map (fun line => line ++ newline) kept).

End Props.

(** ** Sample objects *)

Module Sample.

Import RAGChatbot SlackRAGBot.

Definition docs : list str := [py "Company Culture"; py "Company Policies"].

(** The chatbot of [main.py] right after start-up. *)
Definition fresh : chatbot := RAGChatbot.init docs true.

(** The same chatbot after a turn of small talk. *)
Definition chatting : chatbot := set_last_query_type fresh general.

(** Sets enumerate their elements in the order of first insertion. *)
Definition first_seen : PySet :=
  {| iter_str := nodup (list_eq_dec ascii_dec);
     iter_int := nodup Nat.eq_dec |}.

(** A retrieval chain that finds a vague sentence and a model that
    answers with a greeting. *)
Definition vague_chain : LangChain :=
  {| rag_chain := fun _ =>
       Ok (ChainOutput
             (py "Sorry, we don't find any relevant information on that topic.")
             []);
     llm := fun _ => Ok (py "Happy to help!") |}.

(** A retrieval chain that generates nothing. *)
Definition silent_chain : LangChain :=
  {| rag_chain := fun _ => Ok (ChainOutput [] []);
     llm := fun _ => Ok (py "Happy to help!") |}.

(** A model whose reply quotes the sentence of the document route after
    the word [Error:]. *)
Definition quoting_model : LangChain :=
  {| rag_chain := fun _ => Ok (ChainOutput [] []);
     llm := fun _ =>
       Ok (py "Error: I don't find any relevant information in the available documents") |}.

Definition no_slack : SlackClient :=
  {| conversations_history := fun _ _ => Raise (py "not_in_channel");
     users_info := fun _ => Raise (py "user_not_found") |}.

Definition slack_fresh : slackbot := SlackRAGBot.init (Some fresh) true.

(** Two long messages, 10000 characters of text together. *)
Definition long_message (h : nat) : message :=
  Message (repeat "a"%char 5000) (py "quinn") (Stamp h 9 h) [].

Definition long_messages : list message := [long_message 1; long_message 2].

(** Eleven turns, numbered by the time they were asked at. *)
Definition eleven_turns : list Props.turn :=
  map (fun n => (n, py "question " ++ str_of_nat n, py "answer", general))
      (List.seq 1 11).

(** A message that is too long by itself. *)
Definition huge_message : message :=
  Message (repeat "b"%char 9000) (py "quinn") (Stamp 3 9 3) [].

(** A disk with the first of the two configured files only, no database
    yet, a splitter that keeps pages whole and a database that takes
    whatever it is given. *)
Definition one_file : DocumentProcessor.Indexing :=
  {| DocumentProcessor.store := nat;
     DocumentProcessor.store_truthy := fun _ => true;
     DocumentProcessor.path_exists :=
       fun path => str_eqb path (py "documents/CompanyCulture.pdf");
     DocumentProcessor.load_pdf :=
       fun _ => Ok [DocumentProcessor.Document (py "We value candour.") None None];
     DocumentProcessor.split_documents := fun pages => Ok pages;
     DocumentProcessor.open_database := Raise (py "no such directory");
     DocumentProcessor.create_database := fun chunks => Ok (length chunks) |}.

Definition configured_paths : list (str * str) :=
  [ (py "Company Culture", py "documents/CompanyCulture.pdf");
    (py "Company Policies", py "documents/CompanyPolicies.pdf") ].

(** A gateway that delivers everything. *)
Definition reliable : SlackHandlers.Gateway :=
  {| SlackHandlers.say_fails := fun _ => None |}.

(** The handlers right after start-up. *)
Definition handlers_fresh : SlackHandlers.hstate :=
  SlackHandlers.HState (Some slack_fresh) [].

(** A chatbot with one document whose name is also a fixed keyword. *)
Definition policy_bot : chatbot := RAGChatbot.init [py "Policy"] true.

(** A channel with two messages worth reading and one that is blank. *)
Definition busy_slack : SlackClient :=
  {| conversations_history := fun _ _ =>
       Ok [ RawMessage (Some (py "Lunch at noon?")) (Some (py "U1"))
                       (Stamp 100 11 55) [];
            RawMessage (Some (py "  ")) (Some (py "U2")) (Stamp 90 11 50) [];
            RawMessage (Some (py "Deploy is done")) None (Stamp 50 9 5) [] ];
     users_info := fun _ => Ok (Some (py "quinn")) |}.

End Sample.

(** ** What is asked of the outside for some of the properties *)

Module Laws.

Import RAGChatbot.

(** A set enumerates exactly the elements it was built from. *)
Definition lawful (sets : PySet) : Prop :=
  (forall l x, In x (iter_str l) <-> In x l)
  /\ (forall l x, In x (iter_int l) <-> In x l).

(** Not later than. *)
Definition time_le (a b : SlackRAGBot.message) : Prop :=
  SlackRAGBot.posix (SlackRAGBot.timestamp a)
  <= SlackRAGBot.posix (SlackRAGBot.timestamp b).

(** Oldest first: no message comes before an earlier one. *)
Definition oldest_first (l : list SlackRAGBot.message) : Prop :=
  Sorted.StronglySorted time_le l.

(** A message with something to read in it. *)
Definition readable (m : SlackRAGBot.message) : Prop :=
  strip (SlackRAGBot.text m) <> [].

(** The number of messages of an author. *)
Definition messages_of (u : str) (messages : list SlackRAGBot.message) : nat :=
  length (filter (fun m => str_eqb u (SlackRAGBot.user m)) messages).

(** A character of ASCII, on which [str.lower] and [str.upper] are the
    maps between [A-Z] and [a-z]. *)
Definition plain (c : ascii) : bool := code c <? 128.

(** Any character but the opening angle bracket. *)
Definition not_open (x : ascii) : bool := negb (Ascii.eqb x "<").

(** A call to Slack, as opposed to a call to the chain or the model. *)
Definition slack_call (e : event) : Prop :=
  match e with
  | ConversationsHistoryCall _ _ | UsersInfoCall _ => True
  | RagChainCall _ | LLMCall _ => False
  end.

(** Between two states of a handler, at most one message was posted. *)
Definition at_most_one_more (before after : SlackHandlers.hstate) : Prop :=
  SlackHandlers.outbox after = SlackHandlers.outbox before
  \/ exists m,
       SlackHandlers.outbox after = SlackHandlers.outbox before ++ [m].

(** Any character but the closing angle bracket. *)
Definition not_close (x : ascii) : bool := negb (Ascii.eqb x ">").

(** The chunks of a configured document. *)
Definition chunks_of {indexing : DocumentProcessor.Indexing}
  (item : str * str) : list DocumentProcessor.document :=
  DocumentProcessor.load_single_document (fst item) (snd item).

(** The configured document gave at least one chunk. *)
Definition gave_chunks {indexing : DocumentProcessor.Indexing}
  (item : str * str) : bool :=
  match DocumentProcessor.load_single_document (fst item) (snd item) with
  | [] => false
  | _ :: _ => true
  end.

End Laws.

(** * Properties *)

Module QueryClassifier.

Import RAGChatbot Props.

(** C1.  When the lower-cased, trimmed question matches a continuation
    pattern and a last classification is set, [classify_query] returns
    that classification, whatever the general-chat patterns and the
    keyword count say. *)
Theorem continuation_has_precedence (self : chatbot) (question : str)
  (last : query_type) :
  is_continuation (strip (lower question)) = true ->
  last_query_type self = Some last ->
  classify_query self question = last.
Proof.
  intros Hcont Hlast. unfold classify_query.
  rewrite Hcont, Hlast. reflexivity.
Qed.

(** A greeting that also names three keywords and says "this" keeps the
    route of the previous turn. *)
Lemma continuation_has_precedence_witness :
  classify_query Sample.chatting
    (py "Hello, what does this document say about page 3?") = general
  /\ classify_query (set_last_query_type Sample.fresh mixed)
       (py "Hello, what does this document say about page 3?") = mixed.
Proof.
  split.
  - apply (@continuation_has_precedence Sample.chatting
             (py "Hello, what does this document say about page 3?") general);
      vm_compute; reflexivity.
  - apply (@continuation_has_precedence (set_last_query_type Sample.fresh mixed)
             (py "Hello, what does this document say about page 3?") mixed);
      vm_compute; reflexivity.
Defined.

Lemma nodup_length_le (l : list str) :
  length (nodup (list_eq_dec ascii_dec) l) <= length l.
Proof.
  induction l as [|x l IH]; simpl.
  - lia.
  - destruct (in_dec (list_eq_dec ascii_dec) x l); simpl; lia.
Qed.

Lemma distinct_keywords_le_score (keywords : list str) (text : str) :
  length (distinct_keywords keywords text) <= doc_score keywords text.
Proof.
  unfold distinct_keywords, doc_score. apply nodup_length_le.
Qed.

Lemma distinct_keywords_eq_score (keywords : list str) (text : str) :
  NoDup keywords ->
  length (distinct_keywords keywords text) = doc_score keywords text.
Proof.
  intros Hnd. unfold distinct_keywords, doc_score.
  rewrite nodup_fixed_point; [reflexivity|].
  apply NoDup_filter, Hnd.
Qed.

(** The keyword step is reached only past the two pattern steps. *)
Lemma classify_query_keyword_step (self : chatbot) (question : str) :
  is_continuation (strip (lower question)) = false
    \/ last_query_type self = None ->
  is_general (strip (lower question)) = false ->
  classify_query self question =
    let score := doc_score (document_keywords self) (strip (lower question)) in
    if 2 <=? score then rag else if score =? 1 then mixed else general.
Proof.
  intros Hcont Hgen. unfold classify_query. rewrite Hgen.
  destruct Hcont as [-> | ->]; [reflexivity|].
  destruct (is_continuation _); reflexivity.
Qed.

(** C2, as the code has it.  Provided the continuation step does not
    fire and no general-chat pattern matches: a question with at least
    two distinct keywords is a document query, and a question with
    exactly one is hybrid when no keyword is configured twice. *)
Theorem keyword_score_decides_past_patterns (self : chatbot) (question : str) :
  let text := strip (lower question) in
  is_continuation text = false \/ last_query_type self = None ->
  is_general text = false ->
  (2 <= length (distinct_keywords (document_keywords self) text) ->
   classify_query self question = rag)
  /\ (NoDup (document_keywords self) ->
      length (distinct_keywords (document_keywords self) text) = 1 ->
      classify_query self question = mixed).
Proof.
  intros text Hcont Hgen.
  rewrite (classify_query_keyword_step self question Hcont Hgen).
  fold text. cbv zeta. split.
  - intros H2.
    pose proof (distinct_keywords_le_score (document_keywords self) text) as Hle.
    destruct (Nat.leb_spec 2 (doc_score (document_keywords self) text));
      [reflexivity | lia].
  - intros Hnd H1.
    rewrite (distinct_keywords_eq_score text Hnd) in H1. rewrite H1.
    reflexivity.
Qed.

Lemma sample_keywords_NoDup : NoDup (document_keywords Sample.fresh).
Proof.
  assert (H : nodup (list_eq_dec ascii_dec) (document_keywords Sample.fresh)
              = document_keywords Sample.fresh) by (vm_compute; reflexivity).
  rewrite <- H. apply NoDup_nodup.
Qed.

Lemma keyword_score_decides_past_patterns_witness :
  classify_query Sample.fresh (py "Which page of the handbook covers the dress code policy?") = rag
  /\ classify_query Sample.fresh (py "Company Policies") = mixed.
Proof.
  split.
  - apply (@keyword_score_decides_past_patterns Sample.fresh
             (py "Which page of the handbook covers the dress code policy?")).
    + right. reflexivity.
    + vm_compute. reflexivity.
    + vm_compute. lia.
  - apply (@keyword_score_decides_past_patterns Sample.fresh
             (py "Company Policies")).
    + right. reflexivity.
    + vm_compute. reflexivity.
    + exact sample_keywords_NoDup.
    + vm_compute. reflexivity.
Defined.

(** C2 as stated fails: a greeting decides the route before the keywords
    are counted. *)
Lemma keywords_alone_do_not_decide :
  2 <= length (distinct_keywords (document_keywords Sample.fresh)
                 (py "hello document file"))
  /\ classify_query Sample.fresh (py "hello document file") <> rag
  /\ length (distinct_keywords (document_keywords Sample.fresh)
               (py "thanks for the policy")) = 1
  /\ classify_query Sample.fresh (py "thanks for the policy") <> mixed.
Proof.
  vm_compute. repeat split; try lia; discriminate.
Qed.

(** The two other conditions of the amended statement are needed as
    well: a continuation keeps the previous route whatever the keywords,
    and a keyword configured twice counts twice. *)
Lemma continuation_overrides_keywords :
  2 <= length (distinct_keywords (document_keywords Sample.chatting)
                 (py "tell me more about the policy section"))
  /\ is_general (py "tell me more about the policy section") = false
  /\ classify_query Sample.chatting (py "Tell me more about the policy section")
     = general.
Proof.
  vm_compute. repeat split. lia.
Qed.

Lemma repeated_keyword_counts_twice :
  length (distinct_keywords (document_keywords Sample.policy_bot) (py "policy")) = 1
  /\ is_general (py "policy") = false
  /\ doc_score (document_keywords Sample.policy_bot) (py "policy") = 2
  /\ classify_query Sample.policy_bot (py "policy") = rag.
Proof.
  vm_compute. repeat split.
Qed.

End QueryClassifier.

Module ConversationHistory.

Import RAGChatbot Props.

Lemma history_set_history (self : chatbot) (h : list entry) :
  conversation_history (set_history self h) = h.
Proof. reflexivity. Qed.

Lemma max_add_to_history now q a qt (self : chatbot) :
  max_history_length (add_to_history now q a qt self) = max_history_length self.
Proof.
  unfold add_to_history. destruct (_ <? _); reflexivity.
Qed.

Lemma max_appends (turns : list turn) (self : chatbot) :
  max_history_length (appends turns self) = max_history_length self.
Proof.
  revert self. induction turns as [|[[[now q] a] qt] turns IH]; intros self.
  - reflexivity.
  - simpl. unfold appends in IH. rewrite IH. apply max_add_to_history.
Qed.

Lemma appends_snoc (turns : list turn) (t : turn) (self : chatbot) :
  appends (turns ++ [t]) self =
  let '(now, q, a, qt) := t in add_to_history now q a qt (appends turns self).
Proof.
  unfold appends. rewrite fold_left_app. reflexivity.
Qed.

Lemma tl_skipn {A} (k : nat) (l : list A) : tl (skipn k l) = skipn (S k) l.
Proof.
  revert l. induction k as [|k IH]; intros [|x l]; simpl; auto.
Qed.

Lemma last_n_length {A} (n : nat) (l : list A) :
  length (last_n n l) = Nat.min n (length l).
Proof.
  unfold last_n. rewrite length_skipn. lia.
Qed.

(** One call: the history stays within the bound once it is within it,
    and holds the last entries of what it held plus the new one. *)
Lemma add_to_history_last_n now q a qt (self : chatbot) :
  length (conversation_history self) <= max_history_length self ->
  conversation_history (add_to_history now q a qt self) =
  last_n (max_history_length self)
         (conversation_history self ++ [Entry now q a qt]).
Proof.
  intros Hle. unfold add_to_history, last_n.
  rewrite length_app. simpl length.
  destruct (Nat.ltb_spec (max_history_length self)
                         (length (conversation_history self) + 1)) as [Hlt|Hge];
    rewrite history_set_history.
  - replace (length (conversation_history self) + 1 - max_history_length self)
      with 1 by lia.
    reflexivity.
  - replace (length (conversation_history self) + 1 - max_history_length self)
      with 0 by lia.
    reflexivity.
Qed.

Lemma last_n_snoc {A} (n : nat) (l : list A) (x : A) :
  last_n n (last_n n l ++ [x]) = last_n n (l ++ [x]).
Proof.
  unfold last_n. rewrite !length_app, length_skipn. simpl length.
  destruct (Nat.le_gt_cases (length l) n) as [Hle|Hgt].
  - replace (length l - n) with 0 by lia. simpl skipn.
    rewrite Nat.sub_0_r. reflexivity.
  - replace (length l - (length l - n) + 1 - n) with 1 by lia.
    replace (length l + 1 - n) with (S (length l - n)) by lia.
    rewrite <- (tl_skipn (length l - n) (l ++ [x])).
    rewrite (skipn_app (length l - n) l [x]).
    replace (length l - n - length l) with 0 by lia.
    reflexivity.
Qed.

(** Starting from an empty history, the history is always the last
    [max_history_length] entries appended, in the order of the calls. *)
Lemma appends_last_n (turns : list turn) (self : chatbot) :
  conversation_history self = [] ->
  conversation_history (appends turns self) =
  last_n (max_history_length self) (map entry_of turns).
Proof.
  intros Hempty. induction turns as [|t turns IH] using rev_ind.
  - simpl. rewrite Hempty. reflexivity.
  - rewrite appends_snoc. destruct t as [[[now q] a] qt].
    rewrite add_to_history_last_n.
    + rewrite max_appends, IH, map_app. simpl map. apply last_n_snoc.
    + rewrite max_appends, IH, last_n_length. lia.
Qed.

Lemma appends_bounded (turns : list turn) (self : chatbot) :
  length (conversation_history self) <= max_history_length self ->
  length (conversation_history (appends turns self)) <= max_history_length self.
Proof.
  intros Hle. induction turns as [|t turns IH] using rev_ind.
  - exact Hle.
  - rewrite appends_snoc. destruct t as [[[now q] a] qt].
    rewrite add_to_history_last_n; rewrite max_appends; [|exact IH].
    rewrite last_n_length. lia.
Qed.

(** C3.  The history never grows past the configured bound (10 unless
    configured otherwise); from an empty history it always holds the most
    recent entries in the order they were appended, so that after one
    append more than the bound the first entry is gone and the rest are
    all the later ones. *)
Theorem history_is_bounded_fifo (self : chatbot) (turns : list turn) :
  let H := max_history_length self in
  let after := conversation_history (appends turns self) in
  (length (conversation_history self) <= H -> length after <= H)
  /\ (conversation_history self = [] ->
      after = last_n H (map entry_of turns)
      /\ (length turns = S H ->
          after = tl (map entry_of turns) /\ length after = H))
  /\ (forall docs ready, max_history_length (RAGChatbot.init docs ready) = 10).
Proof.
  intros H after. split; [|split].
  - apply appends_bounded.
  - intros Hempty.
    assert (Hafter : after = last_n H (map entry_of turns))
      by (apply appends_last_n, Hempty).
    split; [exact Hafter|].
    intros Hlen. rewrite Hafter. split.
    + unfold last_n. rewrite length_map, Hlen.
      replace (S H - H) with 1 by lia. reflexivity.
    + rewrite last_n_length, length_map, Hlen. lia.
  - reflexivity.
Qed.

Lemma history_is_bounded_fifo_witness :
  length (conversation_history (appends Sample.eleven_turns Sample.fresh)) <= 10
  /\ conversation_history (appends Sample.eleven_turns Sample.fresh)
     = tl (map entry_of Sample.eleven_turns)
  /\ length (conversation_history (appends Sample.eleven_turns Sample.fresh)) = 10.
Proof.
  pose proof (history_is_bounded_fifo Sample.fresh Sample.eleven_turns)
    as [Hbound [Hfifo _]].
  split.
  - apply Hbound. simpl. lia.
  - apply Hfifo; reflexivity.
Defined.

End ConversationHistory.

Module AnswerRouter.

Import RAGChatbot Props.

Section Routes.

Context {services : LangChain} {sets : PySet}.

(** The query the document route sends to the retrieval chain. *)
Lemma ask_rag_shape (question : str) (self : chatbot) :
  ask_rag question self =
  (value (ask_rag question self), self,
   [RagChainCall match conversation_history self with
                 | [] => question
                 | _ :: _ => get_conversation_context self question 2
                 end]).
Proof.
  unfold ask_rag, bind, get, emit, value. simpl.
  destruct (rag_chain _) as [out|e]; [|reflexivity].
  destruct (negb (truthy (strip (result out)))); [reflexivity|].
  destruct (source_documents out); reflexivity.
Qed.

Lemma ask_general_shape (question : str) (self : chatbot) :
  ask_general question self =
  (value (ask_general question self), self,
   [LLMCall match conversation_history self with
            | [] => general_prompt_format question
            | _ :: _ =>
                general_prompt_format (get_conversation_context self question 2)
            end]).
Proof.
  unfold ask_general, bind, get, emit, value. simpl.
  destruct (llm _); reflexivity.
Qed.

(** C4, as the code has it.  The hybrid route first runs the document
    route; it then runs the chat route and appends the suggestion exactly
    when the lower-cased document answer contains "don't find any
    relevant information", which the fixed sentence of the document
    route does; any other document answer is returned as it is. *)
Theorem hybrid_falls_back_on_the_phrase (question : str) (self : chatbot) :
  let doc := ask_rag question self in
  let chat := ask_general question self in
  ask_mixed question self =
    (if found_nothing (value doc)
     then (value chat ++ suggestion self, self, calls doc ++ calls chat)
     else (value doc, self, calls doc))
  /\ (exists query, calls doc = [RagChainCall query])
  /\ (exists prompt, calls chat = [LLMCall prompt])
  /\ found_nothing no_information = true.
Proof.
  intros doc chat. subst doc chat.
  repeat split.
  - unfold ask_mixed, bind.
    rewrite (ask_rag_shape question self). cbn [value calls fst snd].
    destruct (found_nothing _); cbn [negb].
    + rewrite (ask_general_shape question self). reflexivity.
    + reflexivity.
  - rewrite ask_rag_shape. eexists. reflexivity.
  - rewrite ask_general_shape. eexists. reflexivity.
Qed.

End Routes.

(** C4 as stated fails: a document answer that is not the fixed sentence
    but quotes its phrase is dropped for the chat route. *)
Lemma hybrid_drops_an_answer_that_is_not_the_sentinel :
  let services := Sample.vague_chain in
  let sets := Sample.first_seen in
  let question := py "Where is the cafeteria menu page?" in
  classify_query Sample.fresh question = mixed
  /\ value (ask_rag question Sample.fresh) <> no_information
  /\ value (ask_mixed question Sample.fresh)
     = py "Happy to help!" ++ suggestion Sample.fresh
  /\ value (ask_mixed question Sample.fresh)
     <> value (ask_rag question Sample.fresh)
  /\ In (LLMCall (general_prompt_format question))
        (calls (ask_mixed question Sample.fresh)).
Proof.
  vm_compute. repeat split; try discriminate. right. left. reflexivity.
Qed.

End AnswerRouter.

Module ChannelCommandParser.

Import Re RAGChatbot SlackRAGBot Props.

(** *** What a match of the channel pattern has read *)

Lemma lit_match_exact (l : str) (pv pv' : option ascii) (s t : str) :
  lit_match false l pv s = Some (pv', t) -> s = l ++ t.
Proof.
  revert pv s. induction l as [|a l IH]; intros pv s H; simpl in H.
  - injection H as _ ->. reflexivity.
  - destruct s as [|b s]; [discriminate|].
    unfold chr_eqb in H. destruct (Ascii.eqb_spec a b) as [->|]; [|discriminate].
    simpl. f_equal. eapply IH, H.
Qed.

Lemma star_match_run (p : ascii -> bool) cs (pv : option ascii) (s : str)
  (m : mstate) :
  In m (star_match p cs pv s) ->
  exists run, s = run ++ rest m /\ forallb p run = true /\ caps m = cs.
Proof.
  revert pv. induction s as [|c s IH]; intros pv Hin; simpl in Hin.
  - destruct Hin as [<-|[]]. exists []. auto.
  - destruct (p c) eqn:Hp.
    + apply in_app_or in Hin. destruct Hin as [Hin|[<-|[]]].
      * destruct (IH _ Hin) as (run & Hs & Hall & Hc).
        exists (c :: run). simpl. rewrite Hp, Hall, Hc. rewrite Hs at 1. auto.
      * exists []. auto.
    + destruct Hin as [<-|[]]. exists []. auto.
Qed.

Lemma search_from_found (icase : bool) (r : regex) (pv : option ascii)
  (s : str) (m : mstate) :
  search_from icase r pv s = Some m ->
  exists before pv' s',
    s = before ++ s' /\ In m (rmatch icase r (MState [] pv' s')).
Proof.
  revert pv. induction s as [|c s IH]; intros pv H; simpl in H.
  - destruct (rmatch icase r (MState [] pv [])) as [|m0 l] eqn:E; [discriminate|].
    injection H as <-. exists [], pv, []. rewrite E. simpl. auto.
  - destruct (rmatch icase r (MState [] pv (c :: s))) as [|m0 l] eqn:E.
    + destruct (IH _ H) as (before & pv' & s' & -> & Hin).
      exists (c :: before), pv', s'. auto.
    + injection H as <-. exists [], pv, (c :: s). rewrite E. simpl. auto.
Qed.

Lemma channel_re_match (pv : option ascii) (s : str) (m : mstate) :
  In m (rmatch false channel_re (MState [] pv s)) ->
  exists id after,
    s = py "<#" ++ id ++ py "|>" ++ after
    /\ id <> [] /\ forallb is_alnum id = true
    /\ group 1 (caps m) = Some id.
Proof.
  unfold channel_re. cbn [seq rmatch prev rest caps].
  intros Hin. apply in_flat_map in Hin. destruct Hin as (m1 & H1 & Hin).
  destruct (lit_match false (py "<#") pv s) as [[pv1 s1]|] eqn:E1; [|destruct H1].
  destruct H1 as [<-|[]]. apply lit_match_exact in E1. subst s.
  apply in_flat_map in Hin. destruct Hin as (m2 & H2 & Hin).
  apply in_map_iff in H2. destruct H2 as (m3 & <- & H3).
  cbn [rest prev caps] in *.
  destruct s1 as [|c s1]; [destruct H3|].
  destruct (is_alnum c) eqn:Hc; [|destruct H3].
  apply star_match_run in H3. destruct H3 as (run & Hs1 & Hall & Hcaps).
  destruct (lit_match false (py "|>") (prev m3) (rest m3)) as [[pv4 s4]|] eqn:E4;
    [|destruct Hin].
  destruct Hin as [<-|[]]. apply lit_match_exact in E4.
  exists (c :: run), s4. cbn [caps group Nat.eqb].
  repeat split.
  - rewrite Hs1, E4. reflexivity.
  - discriminate.
  - simpl. rewrite Hc. exact Hall.
  - f_equal. rewrite Hs1.
    change (c :: run ++ rest m3) with ((c :: run) ++ rest m3).
    rewrite length_app, Nat.add_sub, firstn_app, firstn_all, Nat.sub_diag.
    simpl. rewrite app_nil_r. reflexivity.
Qed.

(** *** Trimming and lower-casing keep a token where it is *)

Lemma lstrip_suffix (s : str) : exists a, s = a ++ lstrip s.
Proof.
  induction s as [|c s [a IH]]; simpl.
  - exists []. reflexivity.
  - destruct (isspace c).
    + exists (c :: a). simpl. f_equal. exact IH.
    + exists []. reflexivity.
Qed.

Lemma strip_factor (s : str) : exists a b, s = a ++ strip s ++ b.
Proof.
  unfold strip, rstrip.
  destruct (lstrip_suffix s) as [a Ha].
  destruct (lstrip_suffix (rev (lstrip s))) as [b Hb].
  exists a, (rev b). rewrite Ha at 1. f_equal.
  rewrite <- rev_app_distr, <- Hb, rev_involutive. reflexivity.
Qed.

(** Lower-casing gives one of the four marks of a reference only for
    that mark. *)
Lemma lower_char_mark (c : ascii) :
  existsb (Ascii.eqb (lower_char c)) (py "<#|>") = true -> lower_char c = c.
Proof.
  destruct c as [[] [] [] [] [] [] [] []]; vm_compute; intros H;
    first [reflexivity | discriminate].
Qed.

Lemma lower_marks (l s : str) :
  forallb (fun c => existsb (Ascii.eqb c) (py "<#|>")) l = true ->
  lower s = l -> s = l.
Proof.
  revert s. induction l as [|a l IH]; intros [|c s] Hall H; simpl in H;
    try discriminate; [reflexivity|].
  injection H as Hc Hs. cbn [forallb] in Hall.
  apply andb_true_iff in Hall. destruct Hall as [Ha Hl].
  rewrite <- Hc in Ha.
  rewrite <- Hc, (lower_char_mark c Ha). f_equal. apply IH; auto.
Qed.

(** A reference found in the lower-cased and trimmed message stands in
    the message itself, with an id that lower-cases to the one found. *)
Lemma reference_of_normal_form (msg before id after : str) :
  strip (lower msg) = before ++ py "<#" ++ id ++ py "|>" ++ after ->
  id <> [] -> forallb is_alnum id = true ->
  has_channel_token msg.
Proof.
  intros Hs Hne Hall.
  destruct (strip_factor (lower msg)) as (a & b & H).
  rewrite Hs in H. unfold lower in H.
  apply map_eq_app in H. destruct H as (a' & r1 & -> & _ & H).
  apply map_eq_app in H. destruct H as (r2 & b' & -> & H & _).
  apply map_eq_app in H. destruct H as (before' & r3 & -> & _ & H).
  apply map_eq_app in H. destruct H as (open & r4 & -> & Hopen & H).
  apply map_eq_app in H. destruct H as (id' & r5 & -> & Hid & H).
  apply map_eq_app in H. destruct H as (close & after' & -> & Hclose & _).
  apply (@lower_marks (py "<#") open) in Hopen; [|reflexivity].
  apply (@lower_marks (py "|>") close) in Hclose; [|reflexivity].
  subst open close.
  exists (a' ++ before'), (py "<#" ++ id' ++ py "|>"), (after' ++ b'). split.
  - exists id'. repeat split.
    + intros ->. apply Hne. symmetry. exact Hid.
    + unfold lower. rewrite Hid. exact Hall.
  - rewrite <- !app_assoc. reflexivity.
Qed.

Lemma parse_some_has_token (msg : str) (c : command) :
  _parse_channel_command msg = Some c -> has_channel_token msg.
Proof.
  unfold _parse_channel_command. intros H.
  destruct (search false channel_re (strip (lower msg))) as [m|] eqn:E;
    [|discriminate].
  unfold search in E. apply search_from_found in E.
  destruct E as (before & pv & s' & Hs & Hin).
  apply channel_re_match in Hin.
  destruct Hin as (id & after & -> & Hne & Hall & _).
  exact (@reference_of_normal_form msg before id after Hs Hne Hall).
Qed.

(** *** Conversely, a token is always found *)

Lemma lit_match_app (l : str) (pv : option ascii) (t : str) :
  exists pv', lit_match false l pv (l ++ t) = Some (pv', t).
Proof.
  revert pv. induction l as [|a l IH]; intros pv; simpl.
  - eexists. reflexivity.
  - unfold chr_eqb. rewrite Ascii.eqb_refl. apply IH.
Qed.

Lemma star_match_reaches (p : ascii -> bool) cs (pv : option ascii)
  (run t : str) :
  forallb p run = true ->
  exists m, In m (star_match p cs pv (run ++ t)) /\ rest m = t.
Proof.
  revert pv. induction run as [|c run IH]; intros pv Hall.
  - exists (MState cs pv t). split; [|reflexivity].
    destruct t as [|c t]; simpl; [auto|].
    destruct (p c); [apply in_or_app; right|]; simpl; auto.
  - simpl in Hall. apply andb_true_iff in Hall. destruct Hall as [Hc Hall].
    destruct (IH (Some c) Hall) as (m & Hin & Hrest).
    exists m. split; [|exact Hrest].
    simpl. rewrite Hc. apply in_or_app. left. exact Hin.
Qed.

Lemma channel_re_matches (pv : option ascii) (id after : str) :
  id <> [] -> forallb is_alnum id = true ->
  rmatch false channel_re (MState [] pv (py "<#" ++ id ++ py "|>" ++ after))
  <> [].
Proof.
  intros Hne Hall. unfold channel_re. cbn [seq rmatch prev rest caps].
  destruct (lit_match_app (py "<#") pv (id ++ py "|>" ++ after)) as [pv1 ->].
  cbn [flat_map]. rewrite app_nil_r.
  destruct id as [|c run]; [congruence|].
  simpl in Hall. apply andb_true_iff in Hall. destruct Hall as [Hc Hall].
  cbn [rmatch prev rest caps app]. rewrite Hc.
  destruct (@star_match_reaches is_alnum [] (Some c) run (py "|>" ++ after) Hall)
    as (m & Hin & Hrest).
  intros Hnil.
  match type of Hnil with
  | flat_map ?f (map ?g ?l) = [] =>
      assert (Hex : exists x, In x (flat_map f (map g l)))
  end.
  { destruct (lit_match_app (py "|>") (prev m) after) as [pv2 E2].
    exists (MState ((1, firstn (length (c :: run ++ py "|>" ++ after)
                                 - length (rest m))
                           (c :: run ++ py "|>" ++ after)) :: caps m)
                   pv2 after).
    apply in_flat_map. eexists. split.
    - apply in_map, Hin.
    - cbn [rmatch prev rest caps]. rewrite Hrest, E2. left. reflexivity. }
  destruct Hex as [x Hx]. rewrite Hnil in Hx. destruct Hx.
Qed.

Lemma search_from_reaches (icase : bool) (r : regex) (pv : option ascii)
  (before s' : str) :
  (forall pv', rmatch icase r (MState [] pv' s') <> []) ->
  search_from icase r pv (before ++ s') <> None.
Proof.
  intros Hm. revert pv. induction before as [|c before IH]; intros pv.
  - simpl. destruct s' as [|c s']; simpl;
      destruct (rmatch icase r _) eqn:E; try discriminate;
      exfalso; eapply Hm, E.
  - simpl. destruct (rmatch icase r _); [apply IH | discriminate].
Qed.

Lemma lower_char_alnum (c : ascii) :
  is_alnum c = true -> is_alnum (lower_char c) = true.
Proof.
  destruct c as [[] [] [] [] [] [] [] []]; vm_compute; intros H; exact H.
Qed.

Lemma lstrip_keeps (pre : str) (c : ascii) (r : str) :
  isspace c = false -> exists pre', lstrip (pre ++ c :: r) = pre' ++ c :: r.
Proof.
  intros Hc. induction pre as [|x pre [pre' IH]]; simpl.
  - exists []. rewrite Hc. reflexivity.
  - destruct (isspace x).
    + exists pre'. exact IH.
    + exists (x :: pre). reflexivity.
Qed.

Lemma strip_keeps (pre : str) (a : ascii) (mid : str) (b : ascii) (post : str) :
  isspace a = false -> isspace b = false ->
  exists pre' post',
    strip (pre ++ a :: mid ++ b :: post) = pre' ++ a :: mid ++ b :: post'.
Proof.
  intros Ha Hb. unfold strip, rstrip.
  destruct (@lstrip_keeps pre a (mid ++ b :: post) Ha) as [pre' ->].
  replace (pre' ++ a :: mid ++ b :: post)
    with ((pre' ++ a :: mid) ++ b :: post)
    by (rewrite <- app_assoc; reflexivity).
  rewrite rev_app_distr. simpl rev at 1. rewrite <- app_assoc. simpl app at 2.
  destruct (@lstrip_keeps (rev post) b (rev (pre' ++ a :: mid)) Hb) as [post' ->].
  exists pre', (rev post').
  rewrite rev_app_distr. simpl rev. rewrite rev_involutive, <- !app_assoc.
  reflexivity.
Qed.

(** A reference in the message stands, lower-cased, in the text the
    parser searches. *)
Lemma normal_form_of_reference (msg : str) :
  has_channel_token msg ->
  exists before id after,
    strip (lower msg) = before ++ py "<#" ++ id ++ py "|>" ++ after
    /\ id <> [] /\ forallb is_alnum id = true.
Proof.
  intros (pre & t & post & (id & Hne & Hall & ->) & ->).
  destruct (@strip_keeps (lower pre) "<"%char (py "#" ++ lower id ++ py "|")
              ">"%char (lower post))
    as (pre' & post' & E); [reflexivity | reflexivity |].
  exists pre', (lower id), post'. repeat split.
  - etransitivity; [|etransitivity; [exact E|]].
    + f_equal. unfold lower. rewrite !map_app. simpl.
      rewrite <- !app_assoc. reflexivity.
    + simpl. rewrite <- !app_assoc. reflexivity.
  - destruct id; [congruence | discriminate].
  - exact Hall.
Qed.

Lemma parse_token_some (msg : str) :
  has_channel_token msg -> exists c, _parse_channel_command msg = Some c.
Proof.
  intros H. apply normal_form_of_reference in H.
  destruct H as (before & id & after & E & Hne & Hall).
  unfold _parse_channel_command. rewrite E.
  destruct (search false channel_re _) as [m|] eqn:Es.
  - eexists. reflexivity.
  - exfalso. revert Es. unfold search.
    apply search_from_reaches. intros pv'. apply channel_re_matches; assumption.
Qed.

(** The parser declines exactly the messages without a channel reference. *)
Lemma parse_none_iff_no_reference (msg : str) :
  _parse_channel_command msg = None <-> ~ has_channel_token msg.
Proof.
  split.
  - intros Hnone Htok. destruct (parse_token_some Htok) as [c Hc]. congruence.
  - intros Hno. destruct (_parse_channel_command msg) as [c|] eqn:E; [|reflexivity].
    exfalso. apply Hno. eapply parse_some_has_token, E.
Qed.

(** C6.  The command of the specification's example is parsed to channel
    C123, operation summarize and window yesterday, and a message without
    a channel reference (no [<#ID|>] whose [ID] is not empty and
    lower-cases to letters and digits) is not a command. *)
Theorem parse_example_and_no_reference :
  _parse_channel_command (py "<#C123|> summarize yesterday")
  = Some (Command (py "C123") (py "summarize") (py "yesterday")
                  (py "<#C123|> summarize yesterday"))
  /\ (forall msg, ~ has_channel_token msg -> _parse_channel_command msg = None).
Proof.
  split.
  - vm_compute. reflexivity.
  - intros msg Hno.
    destruct (_parse_channel_command msg) as [c|] eqn:E; [|reflexivity].
    exfalso. apply Hno. eapply parse_some_has_token, E.
Qed.

Lemma parse_example_and_no_reference_witness :
  _parse_channel_command (py "summarize #general yesterday") = None.
Proof.
  apply (proj2 parse_example_and_no_reference).
  intros (pre & t & post & (id & _ & _ & ->) & H).
  assert (Hin : In "<"%char (py "summarize #general yesterday")).
  { rewrite H. apply in_or_app. right. left. reflexivity. }
  vm_compute in Hin.
  repeat (destruct Hin as [Hin|Hin]; [discriminate Hin|]).
  exact Hin.
Defined.

(** C5.  A command that says "analyze recent" is read as a request for a
    summary: the list of activity words holds the single string
    "analyzerecent", and only that spelling is recognised. *)
Theorem analyze_recent_is_not_activity :
  _parse_channel_command (py "<#C123|> analyze recent")
  = Some (Command (py "C123") (py "summarize") (py "today")
                  (py "<#C123|> analyze recent"))
  /\ _parse_channel_command (py "<#C123|> analyzerecent")
     = Some (Command (py "C123") (py "activity") (py "today")
                     (py "<#C123|> analyzerecent"))
  /\ hd_error activity_words = Some (py "analyzerecent").
Proof.
  vm_compute. repeat split.
Qed.

End ChannelCommandParser.

Module ChannelSummarizer.

Import RAGChatbot SlackRAGBot Props.

Lemma lines_snoc (kept : list str) (line : str) :
  lines (kept ++ [line]) = lines kept ++ line ++ newline.
Proof.
  unfold lines. rewrite map_app, concat_app. simpl.
  rewrite app_nil_r. reflexivity.
Qed.

(** The loop keeps a run of its input, newest first, and puts it back in
    the order of the channel in front of what it already holds. *)
Lemma take_recent_keeps (newest_first : list str) (recent_text : str) :
  exists j,
    take_recent newest_first recent_text
    = lines (rev (firstn j newest_first)) ++ recent_text.
Proof.
  revert recent_text.
  induction newest_first as [|msg older IH]; intros recent_text;
    cbn [take_recent].
  - exists 0. reflexivity.
  - destruct (length (recent_text ++ msg) <? 8000).
    + destruct (IH (msg ++ newline ++ recent_text)) as [j Hj].
      exists (S j). rewrite Hj. cbn [firstn rev].
      rewrite lines_snoc, <- !app_assoc. reflexivity.
    + exists 0. reflexivity.
Qed.

(** The loop is greedy: the first message it leaves out is one that does
    not fit next to what it kept. *)
Lemma take_recent_stops_at_misfit (newest_first : list str) (recent_text : str) :
  exists j,
    take_recent newest_first recent_text
    = lines (rev (firstn j newest_first)) ++ recent_text
    /\ match nth_error newest_first j with
       | Some msg =>
           8000 <= length (take_recent newest_first recent_text) + length msg
       | None => True
       end.
Proof.
  revert recent_text.
  induction newest_first as [|msg older IH]; intros recent_text;
    cbn [take_recent].
  - exists 0. split; reflexivity.
  - destruct (Nat.ltb_spec (length (recent_text ++ msg)) 8000) as [Hlt|Hge].
    + destruct (IH (msg ++ newline ++ recent_text)) as (j & Hj & Hstop).
      exists (S j). split; [|exact Hstop].
      rewrite Hj. cbn [firstn rev].
      rewrite lines_snoc, <- !app_assoc. reflexivity.
    + exists 0. split; [reflexivity|].
      cbn [nth_error]. rewrite length_app in Hge. exact Hge.
Qed.

Lemma take_recent_fits (newest_first : list str) (recent_text : str) :
  length recent_text <= 8000 ->
  length (take_recent newest_first recent_text) <= 8000.
Proof.
  revert recent_text.
  induction newest_first as [|msg older IH]; intros recent_text Hle;
    cbn [take_recent].
  - exact Hle.
  - destruct (Nat.ltb_spec (length (recent_text ++ msg)) 8000) as [Hlt|Hge].
    + apply IH. rewrite length_app in Hlt. rewrite !length_app.
      change (length newline) with 1. lia.
    + exact Hle.
Qed.

(** C7.  When the whole transcript is longer than 8000 characters, what
    is kept is at most 8000 characters long and is made of the formatted
    messages from some point of the channel on, whole, each followed by a
    newline, in the order of the channel. *)
Theorem trimmed_transcript_is_a_recent_tail (messages : list message) :
  let formatted := map format_message messages in
  8000 < length (join newline formatted) ->
  exists k,
    _format_messages_for_analysis messages = lines (skipn k formatted)
    /\ length (_format_messages_for_analysis messages) <= 8000.
Proof.
  intros formatted Hlong. unfold _format_messages_for_analysis.
  fold formatted. apply Nat.ltb_lt in Hlong. rewrite Hlong.
  destruct (take_recent_keeps (rev formatted) []) as [j Hj].
  exists (length formatted - j). split.
  - rewrite Hj, app_nil_r, firstn_rev, rev_involutive. reflexivity.
  - apply take_recent_fits. apply Nat.le_0_l.
Qed.

Lemma trimmed_transcript_is_a_recent_tail_witness :
  exists k,
    _format_messages_for_analysis Sample.long_messages
    = lines (skipn k (map format_message Sample.long_messages))
    /\ length (_format_messages_for_analysis Sample.long_messages) <= 8000.
Proof.
  apply (trimmed_transcript_is_a_recent_tail Sample.long_messages).
  apply Nat.ltb_lt. vm_compute. reflexivity.
Defined.

Section Operations.

Context {services : LangChain} {sets : PySet} {client : SlackClient}.

(** C8.  On an empty list of messages both operations return their fixed
    sentence for the time window and call neither the language model nor
    any other service; the bot is left as it was. *)
Theorem empty_channel_needs_no_service (now : datetime)
  (channel_id time_filter : str) (self : slackbot) :
  _analyze_activity channel_id [] time_filter self
  = (Ok (py "📭 No activity found in the channel for " ++ time_filter ++ py "."),
     self, [])
  /\ _summarize_channel now channel_id [] time_filter self
     = (Ok (py "📭 No messages found in the channel for " ++ time_filter ++ py "."),
        self, []).
Proof.
  split; reflexivity.
Qed.

End Operations.

End ChannelSummarizer.

Module Asking.

Import RAGChatbot SlackRAGBot Props.

Lemma lstrip_blank (s : str) : forallb isspace s = true -> lstrip s = [].
Proof.
  induction s as [|c s IH]; simpl; [reflexivity|].
  intros H. apply andb_true_iff in H. destruct H as [-> Hs]. auto.
Qed.

Lemma strip_blank (s : str) : forallb isspace s = true -> strip s = [].
Proof.
  intros H. unfold strip. rewrite (lstrip_blank s H). reflexivity.
Qed.

Section Requests.

Context {services : LangChain} {sets : PySet} {client : SlackClient}.

(** C9.  A ready chatbot answers a question made of white space only
    (the empty question included) with the fixed invitation; the history
    and the last classification stay as they were, and no service is
    called. *)
Theorem blank_question_is_not_recorded (now : datetime) (question : str)
  (self : chatbot) :
  RAGChatbot.is_ready self = true ->
  forallb isspace question = true ->
  ask now question self
  = (py "Please ask me something! I can help with documents or just chat.",
     self, []).
Proof.
  intros Hready Hblank. unfold ask, bind, get, ret.
  rewrite Hready, (strip_blank question Hblank). reflexivity.
Qed.

(** How [get_answer] presents the answer of the router. *)
Lemma get_answer_regular (now : datetime) (question : str) (self : slackbot)
  (bot : chatbot) :
  SlackRAGBot.is_ready self = true ->
  rag_chatbot self = Some bot ->
  _parse_channel_command question = None ->
  value (get_answer now question self) =
  let answer := value (ask now question bot) in
  if contains (py "Error:") answer then py "❌ " ++ answer
  else if contains no_information answer then rephrase
  else answer.
Proof.
  intros Hready Hbot Hparse.
  unfold get_answer, bind, get, on_chatbot, value.
  cbv beta iota. rewrite Hready, Hparse. cbn [negb]. cbv beta iota.
  rewrite Hbot.
  destruct (ask now question bot) as [[answer bot'] l]. cbn [fst snd].
  destruct (contains (py "Error:") answer); [reflexivity|].
  destruct (contains no_information answer); reflexivity.
Qed.

(** C10, as the code has it.  When the bot is ready and the message is
    not a channel command, an answer of the router that contains the
    fixed sentence of the document route and does not contain "Error:"
    is replaced by the invitation to rephrase. *)
Theorem sentinel_is_replaced_unless_error (now : datetime) (question : str)
  (self : slackbot) (bot : chatbot) :
  SlackRAGBot.is_ready self = true ->
  rag_chatbot self = Some bot ->
  _parse_channel_command question = None ->
  contains (py "I don't find any relevant information in the available documents")
           (value (ask now question bot)) = true ->
  contains (py "Error:") (value (ask now question bot)) = false ->
  value (get_answer now question self)
  = py "🤔 Please try rephrasing your question so that I can understand you better.".
Proof.
  intros Hready Hbot Hparse Hsentinel Herror.
  rewrite (get_answer_regular now question self Hready Hbot Hparse).
  cbv zeta. rewrite Herror.
  change (py "I don't find any relevant information in the available documents")
    with no_information in Hsentinel.
  rewrite Hsentinel. reflexivity.
Qed.

End Requests.

Lemma blank_question_is_not_recorded_witness :
  let services := Sample.silent_chain in
  let sets := Sample.first_seen in
  ask 7 (" " :: "009" :: "010" :: [" "])%char Sample.chatting
  = (py "Please ask me something! I can help with documents or just chat.",
     Sample.chatting, []).
Proof.
  intros services sets.
  apply (@blank_question_is_not_recorded services sets 7
           (" " :: "009" :: "010" :: [" "])%char Sample.chatting);
    reflexivity.
Defined.

Lemma sentinel_is_replaced_unless_error_witness :
  let services := Sample.silent_chain in
  let sets := Sample.first_seen in
  let client := Sample.no_slack in
  value (get_answer 7 (py "What does the policy document say?") Sample.slack_fresh)
  = py "🤔 Please try rephrasing your question so that I can understand you better.".
Proof.
  intros services sets client.
  apply (@sentinel_is_replaced_unless_error services sets client 7
           (py "What does the policy document say?")
           Sample.slack_fresh Sample.fresh);
    vm_compute; reflexivity.
Defined.

(** C10 as stated fails: an answer that also contains "Error:" is shown
    with the sentence of the document route in it. *)
Lemma sentinel_shown_after_error_mark :
  let services := Sample.quoting_model in
  let sets := Sample.first_seen in
  let client := Sample.no_slack in
  _parse_channel_command (py "hello") = None
  /\ contains no_information (value (ask 7 (py "hello") Sample.fresh)) = true
  /\ value (get_answer 7 (py "hello") Sample.slack_fresh)
     = py "❌ Error: I don't find any relevant information in the available documents"
  /\ value (get_answer 7 (py "hello") Sample.slack_fresh) <> rephrase.
Proof.
  vm_compute. repeat split. discriminate.
Qed.

(** A channel summary wraps the answer of the router without looking at
    it, so the sentence of the document route reaches the user there too. *)
Lemma sentinel_shown_in_channel_summary :
  let services := Sample.silent_chain in
  let sets := Sample.first_seen in
  let client := Sample.busy_slack in
  value (get_answer 7 (py "<#C123|> summarize") Sample.slack_fresh)
  = py "📊 *Channel Summary* (today):" ++ newline ++ newline
      ++ no_information ++ newline ++ newline ++ py "_Analyzed 2 messages_".
Proof.
  vm_compute. reflexivity.
Qed.

End Asking.

(** * Further properties of the router *)

Module ClassifierFacts.

Import RAGChatbot Props Laws.

Lemma lower_char_idem (c : ascii) :
  plain c = true -> lower_char (lower_char c) = lower_char c.
Proof.
  destruct c as [[] [] [] [] [] [] [] []]; vm_compute; intros H;
    first [reflexivity | discriminate].
Qed.

Lemma lower_upper_char (c : ascii) :
  plain c = true -> lower_char (upper_char c) = lower_char c.
Proof.
  destruct c as [[] [] [] [] [] [] [] []]; vm_compute; intros H;
    first [reflexivity | discriminate].
Qed.

Lemma lower_lower (s : str) :
  forallb plain s = true -> lower (lower s) = lower s.
Proof.
  intros H. unfold lower. rewrite map_map. apply map_ext_in.
  intros c Hc. apply lower_char_idem. rewrite forallb_forall in H. auto.
Qed.

Lemma lower_upper (s : str) :
  forallb plain s = true -> lower (upper s) = lower s.
Proof.
  intros H. unfold lower, upper. rewrite map_map. apply map_ext_in.
  intros c Hc. apply lower_upper_char. rewrite forallb_forall in H. auto.
Qed.

Lemma lower_blank (s : str) : forallb isspace s = true -> lower s = s.
Proof.
  induction s as [|c s IH]; simpl; [reflexivity|].
  intros H. apply andb_true_iff in H. destruct H as [Hc Hs].
  rewrite (IH Hs). f_equal.
  revert Hc. destruct c as [[] [] [] [] [] [] [] []]; vm_compute;
    intros H; first [reflexivity | discriminate].
Qed.

Lemma lstrip_app_blank (a s : str) :
  forallb isspace a = true -> lstrip (a ++ s) = lstrip s.
Proof.
  induction a as [|c a IH]; simpl; [reflexivity|].
  intros H. apply andb_true_iff in H. destruct H as [-> Ha]. auto.
Qed.

Lemma lstrip_app (s b : str) :
  lstrip (s ++ b) = if forallb isspace s then lstrip b else lstrip s ++ b.
Proof.
  induction s as [|c s IH]; simpl; [reflexivity|].
  destruct (isspace c); simpl; [exact IH | reflexivity].
Qed.

(** Trimming forgets the white space around a text. *)
Lemma strip_padding (a s b : str) :
  forallb isspace a = true -> forallb isspace b = true ->
  strip (a ++ s ++ b) = strip s.
Proof.
  intros Ha Hb. unfold strip. rewrite (@lstrip_app_blank a (s ++ b) Ha), lstrip_app.
  destruct (forallb isspace s) eqn:Hs.
  - rewrite (@Asking.lstrip_blank b Hb).
    rewrite (@Asking.lstrip_blank s Hs). reflexivity.
  - unfold rstrip. rewrite rev_app_distr, lstrip_app_blank; [reflexivity|].
    rewrite forallb_forall in *. intros x Hx. apply Hb, in_rev, Hx.
Qed.

(** X1.  The classification looks at the question without the white
    space around it and, for a question written in ASCII, without its
    letter case. *)
Theorem classify_ignores_case_and_padding (self : chatbot)
  (question a b : str) :
  forallb isspace a = true -> forallb isspace b = true ->
  classify_query self (a ++ question ++ b) = classify_query self question
  /\ (forallb plain question = true ->
      classify_query self (a ++ upper question ++ b)
      = classify_query self question
      /\ classify_query self (a ++ lower question ++ b)
         = classify_query self question).
Proof.
  intros Ha Hb.
  assert (H : forall q', lower q' = lower question ->
                classify_query self (a ++ q' ++ b) = classify_query self question).
  { intros q' Hq. unfold classify_query.
    replace (strip (lower (a ++ q' ++ b))) with (strip (lower question));
      [reflexivity|].
    unfold lower at 2. rewrite !map_app. fold (lower a) (lower q') (lower b).
    rewrite Hq, (@lower_blank a Ha), (@lower_blank b Hb).
    symmetry. apply strip_padding; assumption. }
  split; [apply H; reflexivity|].
  intros Hplain. split; apply H; [apply lower_upper | apply lower_lower];
    exact Hplain.
Qed.

Lemma classify_ignores_case_and_padding_witness :
  classify_query Sample.chatting
    (py "  " ++ upper (py "What about page two?") ++ newline)
  = classify_query Sample.chatting (py "What about page two?").
Proof.
  apply (@classify_ignores_case_and_padding Sample.chatting
           (py "What about page two?") (py "  ") newline); reflexivity.
Defined.

End ClassifierFacts.

Module RouterFacts.

Import RAGChatbot Props.

Section Routes.

Context {services : LangChain} {sets : PySet}.

Lemma ask_mixed_final (question : str) (self : chatbot) :
  final (ask_mixed question self) = self.
Proof.
  unfold ask_mixed, bind.
  rewrite (AnswerRouter.ask_rag_shape question self).
  destruct (negb _); [reflexivity|].
  rewrite (AnswerRouter.ask_general_shape question self). reflexivity.
Qed.

(** What [ask] does with a question it routes. *)
Lemma ask_routed (now : datetime) (question : str) (self : chatbot) :
  is_ready self = true -> strip question <> [] ->
  let qt := classify_query self question in
  let route := match qt with
               | rag => ask_rag question
               | general => ask_general question
               | mixed => ask_mixed question
               end self in
  ask now question self
  = (value route,
     set_last_query_type (add_to_history now question (value route) qt self) qt,
     calls route).
Proof.
  intros Hready Hq qt route. unfold ask, bind, get, put, ret.
  rewrite Hready. cbn [negb].
  destruct (strip question) as [|c t] eqn:E; [congruence|]. cbn [truthy negb].
  fold qt.
  assert (Hroute : route = (value route, self, calls route)).
  { subst route. destruct qt.
    - rewrite (AnswerRouter.ask_rag_shape question self). reflexivity.
    - rewrite (AnswerRouter.ask_general_shape question self). reflexivity.
    - pose proof (ask_mixed_final question self) as Hf.
      destruct (ask_mixed question self) as [[v st] l].
      unfold final in Hf. simpl in Hf. subst st. reflexivity. }
  fold route. rewrite Hroute. cbn [value calls fst snd].
  rewrite !app_nil_r. reflexivity.
Qed.

(** X2.  A ready chatbot that routes a question (one that is not blank)
    records it: the classification becomes the last classification, the
    question, the answer it returns and the classification are the
    newest entry of the history when the history may hold an entry at
    all, and a history within its bound stays within it.  The documents,
    the keywords and the bound are left alone. *)
Theorem ask_records_the_turn (now : datetime) (question : str) (self : chatbot) :
  is_ready self = true -> strip question <> [] ->
  let after := final (ask now question self) in
  let said := value (ask now question self) in
  let qt := classify_query self question in
  last_query_type after = Some qt
  /\ (0 < max_history_length self ->
      length (conversation_history self) <= max_history_length self ->
      exists older,
        conversation_history after = older ++ [Entry now question said qt])
  /\ (length (conversation_history self) <= max_history_length self ->
      length (conversation_history after) <= max_history_length self)
  /\ loaded_documents after = loaded_documents self
  /\ document_keywords after = document_keywords self
  /\ max_history_length after = max_history_length self
  /\ is_ready after = true.
Proof.
  intros Hready Hq after said qt. subst after said.
  rewrite (@ask_routed now question self Hready Hq). cbv zeta. fold qt.
  cbn [final value fst snd].
  set (answer := value _).
  repeat split.
  - intros Hpos Hle. cbn [conversation_history set_last_query_type].
    rewrite ConversationHistory.add_to_history_last_n by exact Hle.
    unfold last_n. rewrite length_app. cbn [length].
    rewrite skipn_app.
    replace (length (conversation_history self) + 1 - max_history_length self
             - length (conversation_history self)) with 0 by lia.
    eexists. reflexivity.
  - intros Hle. cbn [conversation_history set_last_query_type].
    rewrite ConversationHistory.add_to_history_last_n by exact Hle.
    rewrite ConversationHistory.last_n_length. lia.
  - unfold add_to_history. destruct (_ <? _); reflexivity.
  - unfold add_to_history. destruct (_ <? _); reflexivity.
  - unfold add_to_history. destruct (_ <? _); reflexivity.
  - unfold add_to_history. destruct (_ <? _); cbn; exact Hready.
Qed.


(** X4.  The context sent along with a question is made of the last two
    turns only: older turns do not change it. *)
Theorem context_is_the_last_two_turns (self : chatbot)
  (older : list entry) (e1 e2 : entry) (question : str) :
  get_conversation_context (set_history self (older ++ [e1; e2])) question 2
  = get_conversation_context (set_history self [e1; e2]) question 2
  /\ get_conversation_context (set_history self [e1; e2]) question 2
     = py "Conversation context:" ++ newline
         ++ py "Previous Q: " ++ RAGChatbot.question e1 ++ newline
         ++ py "Previous A: " ++ answer e1 ++ newline
         ++ py "Previous Q: " ++ RAGChatbot.question e2 ++ newline
         ++ py "Previous A: " ++ answer e2 ++ newline ++ newline
         ++ py "Current question: " ++ question.
Proof.
  split.
  - unfold get_conversation_context. cbn [conversation_history set_history].
    assert (Hlast : last_n 2 (older ++ [e1; e2]) = [e1; e2]).
    { unfold last_n. rewrite length_app. cbn [length].
      replace (length older + 2 - 2) with (length older) by lia.
      rewrite skipn_app, skipn_all, Nat.sub_diag. reflexivity. }
    rewrite Hlast.
    destruct older; reflexivity.
  - unfold get_conversation_context, last_n.
    cbn [conversation_history set_history length Nat.sub skipn flat_map join].
    cbn [app join]. rewrite <- !app_assoc. reflexivity.
Qed.

End Routes.


Lemma ask_records_the_turn_witness :
  let services := Sample.silent_chain in
  let sets := Sample.first_seen in
  last_query_type (final (ask 7 (py "How are you today?") Sample.fresh))
  = Some (classify_query Sample.fresh (py "How are you today?")).
Proof.
  intros services sets.
  apply (@ask_records_the_turn services sets 7 (py "How are you today?")
           Sample.fresh); [reflexivity | vm_compute; discriminate].
Defined.

End RouterFacts.

(** * Further properties of the channel commands *)

Module ParserFacts.

Import Re RAGChatbot SlackRAGBot Props Laws.

(** X5.  A message is taken for a channel command exactly when it holds,
    anywhere in it, a channel reference [<#ID|>] whose [ID] is not empty
    and lower-cases to letters [a-z] and digits only. *)
Theorem command_iff_channel_reference (msg : str) :
  (exists c, _parse_channel_command msg = Some c) <-> has_channel_token msg.
Proof.
  split.
  - intros [c Hc]. eapply ChannelCommandParser.parse_some_has_token, Hc.
  - apply ChannelCommandParser.parse_token_some.
Qed.

Lemma command_iff_channel_reference_witness :
  exists c, _parse_channel_command (py "sum up <#c42|> please") = Some c.
Proof.
  apply (proj2 (command_iff_channel_reference (py "sum up <#c42|> please"))).
  exists (py "sum up "), (py "<#c42|>"), (py " please"). split.
  - exists (py "c42"). repeat split. discriminate.
  - reflexivity.
Defined.

Lemma lower_char_not_upper (c : ascii) : is_upper (lower_char c) = false.
Proof.
  destruct c as [[] [] [] [] [] [] [] []]; vm_compute; reflexivity.
Qed.

Lemma upper_char_of_lower_alnum (c : ascii) :
  is_alnum c = true -> is_upper c = false ->
  is_upper (upper_char c) || is_digit (upper_char c) = true.
Proof.
  destruct c as [[] [] [] [] [] [] [] []]; vm_compute; intros H1 H2;
    first [reflexivity | discriminate].
Qed.

Lemma upper_lower_char (c : ascii) :
  is_alnum c = true -> upper_char (lower_char c) = upper_char c.
Proof.
  destruct c as [[] [] [] [] [] [] [] []]; vm_compute; intros H;
    first [reflexivity | discriminate].
Qed.

Lemma in_lower_not_upper (s : str) (c : ascii) :
  In c (lower s) -> is_upper c = false.
Proof.
  unfold lower. intros H. apply in_map_iff in H.
  destruct H as (x & <- & _). apply lower_char_not_upper.
Qed.

(** What the parser makes of the match it found. *)
Lemma parse_some_inv (msg : str) (c : command) :
  _parse_channel_command msg = Some c ->
  exists before id after,
    strip (lower msg) = before ++ py "<#" ++ id ++ py "|>" ++ after
    /\ id <> [] /\ forallb is_alnum id = true
    /\ channel_id c = upper id
    /\ original_query c = msg
    /\ In (command_type c) [py "activity"; py "summarize"]
    /\ In (time_filter c) [py "today"; py "yesterday"; py "week"; py "month"].
Proof.
  unfold _parse_channel_command. intros H.
  destruct (search false channel_re (strip (lower msg))) as [m|] eqn:E;
    [|discriminate].
  unfold search in E. apply ChannelCommandParser.search_from_found in E.
  destruct E as (before & pv & s' & Hs & Hin).
  apply ChannelCommandParser.channel_re_match in Hin.
  destruct Hin as (id & after & -> & Hne & Hall & Hg).
  rewrite Hg in H. injection H as <-.
  exists before, id, after. cbn [channel_id original_query command_type time_filter].
  repeat split; try assumption; try reflexivity.
  - match goal with |- In (if ?b then _ else _) _ => destruct b end;
      simpl; auto.
  - repeat match goal with
           | |- In (if ?b then _ else _) _ => destruct b
           end; simpl; auto.
Qed.

(** X6.  Every command the parser returns is well formed: the channel
    id is not empty and made of upper-case letters and digits only, the
    operation is "activity" or "summarize", the time window is one of
    "today", "yesterday", "week" and "month", and the query kept with
    the command is the message as it was received. *)
Theorem parsed_command_is_well_formed (msg : str) (c : command) :
  _parse_channel_command msg = Some c ->
  channel_id c <> []
  /\ forallb (fun x => is_upper x || is_digit x) (channel_id c) = true
  /\ In (command_type c) [py "activity"; py "summarize"]
  /\ In (time_filter c) [py "today"; py "yesterday"; py "week"; py "month"]
  /\ original_query c = msg.
Proof.
  intros H. apply parse_some_inv in H.
  destruct H as (before & id & after & Hs & Hne & Hall & Hid & Hq & Hct & Htf).
  rewrite Hid. repeat split; try assumption.
  - destruct id; [congruence | discriminate].
  - assert (Hlow : forall x, In x id -> is_upper x = false).
    { intros x Hx. destruct (ChannelCommandParser.strip_factor (lower msg))
        as (a & b & Hf).
      apply (@in_lower_not_upper msg). rewrite Hf, Hs.
      apply in_or_app. right. apply in_or_app. left.
      apply in_or_app. right. apply in_or_app. right.
      apply in_or_app. left. exact Hx. }
    clear Hs Hne Hid. unfold upper.
    induction id as [|x id IH]; [reflexivity|].
    simpl in Hall. apply andb_true_iff in Hall. destruct Hall as [Hx Hall].
    simpl. rewrite (@upper_char_of_lower_alnum x Hx (Hlow x (or_introl eq_refl))).
    apply IH; [exact Hall|]. intros y Hy. apply Hlow. right. exact Hy.
Qed.

Lemma parsed_command_is_well_formed_witness :
  let msg := py "what happened in <#c0a9z|> last week?" in
  let c := Command (py "C0A9Z") (py "activity") (py "week") msg in
  channel_id c <> []
  /\ forallb (fun x => is_upper x || is_digit x) (channel_id c) = true
  /\ In (command_type c) [py "activity"; py "summarize"]
  /\ In (time_filter c) [py "today"; py "yesterday"; py "week"; py "month"]
  /\ original_query c = msg.
Proof.
  intros msg c.
  apply (@parsed_command_is_well_formed msg c).
  vm_compute. reflexivity.
Defined.

(** *** The first reference is the one that counts *)

Lemma star_match_head (p : ascii -> bool) cs (pv : option ascii) (run t : str) :
  forallb p run = true ->
  match t with [] => True | x :: _ => p x = false end ->
  exists pv' l, star_match p cs pv (run ++ t) = MState cs pv' t :: l.
Proof.
  revert pv. induction run as [|c run IH]; intros pv Hall Ht.
  - destruct t as [|x t]; simpl.
    + eexists _, _. reflexivity.
    + rewrite Ht. eexists _, _. reflexivity.
  - simpl in Hall. apply andb_true_iff in Hall. destruct Hall as [Hc Hall].
    destruct (IH (Some c) Hall Ht) as (pv' & l & E).
    simpl. rewrite Hc, E. eexists _, _. reflexivity.
Qed.

Lemma channel_re_first (pv : option ascii) (id after : str) :
  id <> [] -> forallb is_alnum id = true ->
  exists m l,
    rmatch false channel_re (MState [] pv (py "<#" ++ id ++ py "|>" ++ after))
    = m :: l
    /\ group 1 (caps m) = Some id.
Proof.
  intros Hne Hall. unfold channel_re. cbn [seq rmatch prev rest caps].
  destruct (ChannelCommandParser.lit_match_app (py "<#") pv
              (id ++ py "|>" ++ after)) as [pv1 ->].
  cbn [flat_map]. rewrite app_nil_r.
  destruct id as [|c run]; [congruence|].
  simpl in Hall. apply andb_true_iff in Hall. destruct Hall as [Hc Hall].
  cbn [rmatch prev rest caps app]. rewrite Hc.
  destruct (@star_match_head is_alnum [] (Some c) run (py "|>" ++ after) Hall)
    as (pv2 & l & E); [reflexivity|].
  rewrite E. cbn [map flat_map rmatch prev rest caps].
  destruct (ChannelCommandParser.lit_match_app (py "|>") pv2 after) as [pv3 ->].
  cbn [app]. eexists _, _. split; [reflexivity|].
  cbn [caps group Nat.eqb]. f_equal.
  change (c :: run ++ py "|>" ++ after) with ((c :: run) ++ py "|>" ++ after).
  rewrite length_app, Nat.add_sub, firstn_app, firstn_all, Nat.sub_diag.
  simpl. rewrite app_nil_r. reflexivity.
Qed.

Lemma channel_re_needs_open (pv : option ascii) (x : ascii) (t : str) :
  not_open x = true -> rmatch false channel_re (MState [] pv (x :: t)) = [].
Proof.
  unfold not_open. intros H. apply negb_true_iff in H.
  unfold channel_re. cbn [seq rmatch prev rest caps].
  cbn [py list_ascii_of_string lit_match chr_eqb].
  rewrite Ascii.eqb_sym, H. reflexivity.
Qed.

Lemma search_skips_other_text (pv : option ascii) (pre s' : str) :
  forallb not_open pre = true ->
  exists pv', search_from false channel_re pv (pre ++ s')
              = search_from false channel_re pv' s'.
Proof.
  revert pv. induction pre as [|x pre IH]; intros pv Hall.
  - exists pv. reflexivity.
  - simpl in Hall. apply andb_true_iff in Hall. destruct Hall as [Hx Hall].
    destruct (IH (Some x) Hall) as [pv' E].
    exists pv'. cbn [app search_from].
    rewrite (@channel_re_needs_open pv x (pre ++ s') Hx). exact E.
Qed.

Lemma not_open_lower (x : ascii) : not_open (lower_char x) = not_open x.
Proof.
  destruct x as [[] [] [] [] [] [] [] []]; vm_compute; reflexivity.
Qed.

Lemma lstrip_keeps_suffix (pre : str) (c : ascii) (r : str) :
  isspace c = false ->
  exists w pre', pre = w ++ pre' /\ lstrip (pre ++ c :: r) = pre' ++ c :: r.
Proof.
  intros Hc. induction pre as [|x pre (w & pre' & Hp & IH)]; simpl.
  - exists [], []. rewrite Hc. auto.
  - destruct (isspace x).
    + exists (x :: w), pre'. rewrite Hp at 1. auto.
    + exists [], (x :: pre). auto.
Qed.

Lemma strip_keeps_suffix (pre : str) (a : ascii) (mid : str) (b : ascii)
  (post : str) :
  isspace a = false -> isspace b = false ->
  exists w pre' post',
    pre = w ++ pre'
    /\ strip (pre ++ a :: mid ++ b :: post) = pre' ++ a :: mid ++ b :: post'.
Proof.
  intros Ha Hb. unfold strip, rstrip.
  destruct (@lstrip_keeps_suffix pre a (mid ++ b :: post) Ha)
    as (w & pre' & Hp & ->).
  replace (pre' ++ a :: mid ++ b :: post)
    with ((pre' ++ a :: mid) ++ b :: post)
    by (rewrite <- app_assoc; reflexivity).
  rewrite rev_app_distr. simpl rev at 1. rewrite <- app_assoc. simpl app at 2.
  destruct (@ChannelCommandParser.lstrip_keeps (rev post) b
              (rev (pre' ++ a :: mid)) Hb) as [post' ->].
  exists w, pre', (rev post'). split; [exact Hp|].
  rewrite rev_app_distr. simpl rev. rewrite rev_involutive, <- !app_assoc.
  reflexivity.
Qed.

(** X7.  When nothing before it opens an angle bracket, a channel
    reference gives its id to the command, in upper case. *)
Theorem first_reference_names_the_channel (pre id post : str) :
  forallb not_open pre = true ->
  id <> [] -> forallb is_alnum id = true ->
  exists c,
    _parse_channel_command (pre ++ py "<#" ++ id ++ py "|>" ++ post) = Some c
    /\ channel_id c = upper id.
Proof.
  intros Hpre Hne Hall.
  set (msg := pre ++ py "<#" ++ id ++ py "|>" ++ post).
  assert (Hlow : lower msg
                 = lower pre ++ "<"%char :: (py "#" ++ lower id ++ py "|")
                     ++ ">"%char :: lower post).
  { subst msg. unfold lower. rewrite !map_app. simpl.
    rewrite <- !app_assoc. reflexivity. }
  destruct (@strip_keeps_suffix (lower pre) "<"%char
              (py "#" ++ lower id ++ py "|") ">"%char (lower post))
    as (w & pre' & post' & Hw & Hs); [reflexivity | reflexivity |].
  rewrite <- Hlow in Hs.
  assert (Hs' : strip (lower msg)
                = pre' ++ py "<#" ++ lower id ++ py "|>" ++ post').
  { rewrite Hs. simpl. rewrite <- !app_assoc. reflexivity. }
  assert (Hpre' : forallb not_open pre' = true).
  { assert (Hl : forallb not_open (lower pre) = true).
    { unfold lower. rewrite forallb_forall in *. intros x Hx.
      apply in_map_iff in Hx. destruct Hx as (y & <- & Hy).
      rewrite not_open_lower. apply Hpre, Hy. }
    rewrite Hw, forallb_app in Hl. apply andb_true_iff in Hl. apply Hl. }
  assert (Hlid : lower id <> [])
    by (destruct id; [congruence | discriminate]).
  assert (Hlall : forallb is_alnum (lower id) = true).
  { clear -Hall. induction id as [|x id IH]; simpl in *; [reflexivity|].
    apply andb_true_iff in Hall. destruct Hall as [Hx Hall].
    rewrite (@ChannelCommandParser.lower_char_alnum x Hx). auto. }
  unfold _parse_channel_command. rewrite Hs'. unfold search.
  destruct (@search_skips_other_text None pre'
              (py "<#" ++ lower id ++ py "|>" ++ post') Hpre') as [pv' ->].
  destruct (@channel_re_first pv' (lower id) post' Hlid Hlall)
    as (m & l & Em & Hg).
  assert (Es : search_from false channel_re pv'
                 (py "<#" ++ lower id ++ py "|>" ++ post') = Some m).
  { destruct (py "<#" ++ lower id ++ py "|>" ++ post') eqn:E;
      cbn [search_from]; rewrite Em; reflexivity. }
  rewrite Es, Hg. eexists. split; [reflexivity|].
  cbn [channel_id]. unfold upper, lower. rewrite map_map.
  apply map_ext_in. intros x Hx. apply upper_lower_char.
  rewrite forallb_forall in Hall. auto.
Qed.

Lemma first_reference_names_the_channel_witness :
  exists c,
    _parse_channel_command
      (py "hey, summarize " ++ py "<#" ++ py "c0ffee" ++ py "|>" ++ py " please")
    = Some c
    /\ channel_id c = upper (py "c0ffee").
Proof.
  apply (@first_reference_names_the_channel (py "hey, summarize ")
           (py "c0ffee") (py " please")); [reflexivity | discriminate | reflexivity].
Defined.

End ParserFacts.

Module TranscriptFacts.

Import RAGChatbot SlackRAGBot Props Laws.

Lemma lines_join (kept : list str) :
  kept <> [] -> lines kept = join newline kept ++ newline.
Proof.
  induction kept as [|x [|y kept] IH]; intros Hne; [congruence| |].
  - unfold lines. simpl. rewrite app_nil_r. reflexivity.
  - change (lines (x :: y :: kept)) with ((x ++ newline) ++ lines (y :: kept)).
    rewrite IH by discriminate.
    cbn [join]. rewrite <- !app_assoc. reflexivity.
Qed.

(** X8.  When the transcript is too long, the oldest message at least is
    left out, and the newest message left out is one that does not fit
    in 8000 characters with what is kept. *)
Theorem trimmed_transcript_is_greedy (messages : list message) :
  let formatted := map format_message messages in
  8000 < length (join newline formatted) ->
  exists dropped line kept,
    formatted = dropped ++ line :: kept
    /\ _format_messages_for_analysis messages = lines kept
    /\ 8000 <= length (lines kept) + length line.
Proof.
  intros formatted Hlong.
  pose proof Hlong as Hb. apply Nat.ltb_lt in Hb.
  unfold _format_messages_for_analysis. fold formatted. rewrite Hb.
  destruct (ChannelSummarizer.take_recent_stops_at_misfit (rev formatted) [])
    as (j & Hj & Hstop).
  pose proof (@ChannelSummarizer.take_recent_fits (rev formatted) []
                (Nat.le_0_l _)) as Hfit.
  rewrite app_nil_r in Hj.
  destruct (nth_error (rev formatted) j) as [line|] eqn:En.
  - apply nth_error_split in En. destruct En as (l1 & l2 & Hrev & Hlen).
    exists (rev l2), line, (rev l1).
    assert (Hfirst : firstn j (rev formatted) = l1).
    { rewrite Hrev, <- Hlen, firstn_app, Nat.sub_diag, firstn_all.
      simpl. apply app_nil_r. }
    rewrite Hfirst in Hj. rewrite <- Hj. repeat split.
    + rewrite <- (rev_involutive formatted), Hrev, rev_app_distr.
      simpl. rewrite <- app_assoc. reflexivity.
    + exact Hstop.
  - exfalso. apply nth_error_None in En.
    rewrite firstn_all2 in Hj by exact En.
    rewrite rev_involutive in Hj.
    assert (Hne : formatted <> []).
    { intros E. rewrite E in Hlong. simpl in Hlong. lia. }
    rewrite (lines_join Hne) in Hj. rewrite Hj, length_app in Hfit.
    change (length newline) with 1 in Hfit. lia.
Qed.

Lemma trimmed_transcript_is_greedy_witness :
  exists dropped line kept,
    map format_message Sample.long_messages = dropped ++ line :: kept
    /\ _format_messages_for_analysis Sample.long_messages = lines kept
    /\ 8000 <= length (lines kept) + length line.
Proof.
  apply (trimmed_transcript_is_greedy Sample.long_messages).
  apply Nat.ltb_lt. vm_compute. reflexivity.
Defined.

(** X9.  When the newest message alone takes 8000 characters or more and
    the transcript is too long, nothing at all is kept. *)
Theorem long_newest_message_empties_the_transcript
  (older : list message) (newest : message) :
  8000 < length (join newline (map format_message (older ++ [newest]))) ->
  8000 <= length (format_message newest) ->
  _format_messages_for_analysis (older ++ [newest]) = [].
Proof.
  intros Hlong Hbig. apply Nat.ltb_lt in Hlong.
  unfold _format_messages_for_analysis. rewrite Hlong.
  rewrite map_app, rev_app_distr. cbn [map rev app take_recent].
  apply Nat.ltb_ge in Hbig. rewrite Hbig. reflexivity.
Qed.

Lemma long_newest_message_empties_the_transcript_witness :
  _format_messages_for_analysis ([Sample.long_message 1] ++ [Sample.huge_message])
  = [].
Proof.
  apply (@long_newest_message_empties_the_transcript
           [Sample.long_message 1] Sample.huge_message);
    apply Nat.leb_le; vm_compute; reflexivity.
Defined.

End TranscriptFacts.

Module ChannelFacts.

Import RAGChatbot SlackRAGBot Props Laws.

Lemma insert_sorted_perm (m : message) (l : list message) :
  Permutation (insert_sorted m l) (m :: l).
Proof.
  induction l as [|x l IH]; simpl; [reflexivity|].
  destruct (_ <? _); [reflexivity|].
  rewrite IH. apply perm_swap.
Qed.

Lemma insert_sorted_sorted (m : message) (l : list message) :
  StronglySorted time_le l -> StronglySorted time_le (insert_sorted m l).
Proof.
  induction 1 as [|x l Hs IH Hx]; simpl.
  - repeat constructor.
  - destruct (Nat.ltb_spec (posix (timestamp m)) (posix (timestamp x))) as [Hlt|Hge].
    + constructor; [constructor; assumption|].
      constructor; [unfold time_le; lia|].
      eapply Forall_impl; [|exact Hx]. unfold time_le. intros; lia.
    + constructor; [exact IH|].
      eapply Permutation_Forall; [symmetry; apply insert_sorted_perm|].
      constructor; assumption.
Qed.

Lemma sorting_from (l acc : list message) :
  StronglySorted time_le acc ->
  StronglySorted time_le (fold_left (fun a m => insert_sorted m a) l acc)
  /\ Permutation (fold_left (fun a m => insert_sorted m a) l acc) (acc ++ l).
Proof.
  revert acc. induction l as [|m l IH]; intros acc Hacc; simpl.
  - rewrite app_nil_r. auto.
  - destruct (IH _ (insert_sorted_sorted m Hacc)) as [Hs Hp].
    split; [exact Hs|].
    rewrite Hp, insert_sorted_perm. apply Permutation_cons_app. reflexivity.
Qed.

Lemma sorted_by_timestamp_spec (l : list message) :
  oldest_first (sorted_by_timestamp l) /\ Permutation (sorted_by_timestamp l) l.
Proof.
  destruct (@sorting_from l [] (SSorted_nil _)) as [Hs Hp]. split; assumption.
Qed.

Section Fetching.

Context {services : LangChain} {sets : PySet} {client : SlackClient}.

Lemma _get_user_info_final (user_id : str) (self : slackbot) :
  final (_get_user_info user_id self) = self.
Proof.
  unfold _get_user_info. destruct (str_eqb _ _); [reflexivity|].
  unfold bind, emit. destruct (users_info user_id) as [[d|]|e]; reflexivity.
Qed.

Lemma collect_messages_spec (raw : list raw_message) (self : slackbot) :
  final (collect_messages raw self) = self
  /\ Forall readable (value (collect_messages raw self))
  /\ length (value (collect_messages raw self)) <= length raw.
Proof.
  induction raw as [|msg raw (IHf & IHr & IHl)]; cbn [collect_messages].
  - repeat split; [constructor | reflexivity].
  - destruct (raw_text msg) as [t|]; [|cbn [length]; auto].
    destruct (strip t) as [|c r] eqn:Et; cbn [truthy]; [cbn [length]; auto|].
    unfold bind.
    pose proof (_get_user_info_final
                  match raw_user msg with Some u => u | None => py "Unknown" end
                  self) as Hu.
    destruct (_get_user_info _ self) as [[u s1] l1].
    unfold final in Hu. simpl in Hu. subst s1.
    destruct (collect_messages raw self) as [[others s2] l2].
    unfold final, value in *. simpl in *. subst s2.
    repeat split.
    + constructor; [|exact IHr]. unfold readable. simpl. rewrite Et. discriminate.
    + lia.
Qed.

(** X10.  The messages fetched from a channel come oldest first, each
    has a text that is not blank, there are no more of them than the
    Slack API returned, and fetching leaves the bot as it was. *)
Theorem fetched_messages_are_ordered_and_readable
  (channel_id time_filter : str) (self : slackbot) (messages : list message) :
  value (_get_channel_messages channel_id time_filter self) = Ok messages ->
  oldest_first messages
  /\ Forall readable messages
  /\ (forall raw, conversations_history channel_id time_filter = Ok raw ->
                  length messages <= length raw)
  /\ final (_get_channel_messages channel_id time_filter self) = self.
Proof.
  unfold _get_channel_messages, bind, get, emit, ret.
  destruct (slack_client self); cbn [negb]; [|discriminate].
  destruct channel_id as [|c cid]; cbn [truthy negb].
  { unfold value. simpl. intros H. injection H as <-.
    repeat split; try constructor. intros raw _. apply Nat.le_0_l. }
  destruct (conversations_history (c :: cid) time_filter) as [raw|e].
  - destruct (collect_messages_spec raw self) as (Hf & Hr & Hl).
    destruct (collect_messages raw self) as [[collected s1] l1].
    unfold final, value in *. simpl in *. subst s1.
    intros H. injection H as <-.
    destruct (sorted_by_timestamp_spec collected) as [Hs Hp].
    repeat split.
    + exact Hs.
    + eapply Permutation_Forall; [symmetry; exact Hp | exact Hr].
    + intros raw' E. injection E as <-.
      rewrite (Permutation_length Hp). exact Hl.
  - unfold value. simpl. intros H. injection H as <-.
    repeat split; try constructor. intros raw E. discriminate E.
Qed.

End Fetching.

Lemma fetched_messages_are_ordered_and_readable_witness :
  let services := Sample.silent_chain in
  let sets := Sample.first_seen in
  let client := Sample.busy_slack in
  exists messages,
    value (_get_channel_messages (py "C123") (py "today") Sample.slack_fresh)
    = Ok messages
    /\ length messages = 2
    /\ oldest_first messages.
Proof.
  intros services sets client.
  eexists. split; [vm_compute; reflexivity|]. split; [reflexivity|].
  eapply (@fetched_messages_are_ordered_and_readable client
            (py "C123") (py "today") Sample.slack_fresh).
  vm_compute. reflexivity.
Defined.

End ChannelFacts.

Module BotFacts.

Import RAGChatbot SlackRAGBot Props Laws.

(** *** Python's [max] and [in] *)

Lemma py_max_some {A} (key : A -> nat) (l : list A) :
  l <> [] -> exists x, py_max key l = Some x.
Proof.
  destruct l as [|a l]; [congruence|]. intros _. simpl.
  destruct (py_max key l) as [y|]; [|eauto].
  destruct (_ <? _); eauto.
Qed.

Lemma py_max_spec {A} (key : A -> nat) (l : list A) (x : A) :
  py_max key l = Some x -> In x l /\ Forall (fun y => key y <= key x) l.
Proof.
  revert x. induction l as [|a l IH]; intros x H; simpl in H; [discriminate|].
  destruct (py_max key l) as [y|] eqn:E.
  - destruct (IH y eq_refl) as [Hin Hall].
    destruct (Nat.ltb_spec (key a) (key y)) as [Hlt|Hge]; injection H as <-.
    + split; [right; exact Hin|]. constructor; [lia | exact Hall].
    + split; [left; reflexivity|]. constructor; [lia|].
      eapply Forall_impl; [|exact Hall]. simpl. intros; lia.
  - injection H as <-. split; [left; reflexivity|].
    destruct l as [|b l'].
    + constructor; [apply Nat.le_refl | constructor].
    + exfalso. destruct (@py_max_some A key (b :: l')) as [y Hy];
        [discriminate|]. rewrite E in Hy. discriminate Hy.
Qed.

Lemma startswith_app (x b : str) : startswith x (x ++ b) = true.
Proof.
  induction x as [|c x IH]; simpl; [reflexivity|].
  rewrite Ascii.eqb_refl. exact IH.
Qed.

Lemma startswith_nil_inv (x : str) : startswith x [] = true -> x = [].
Proof. destruct x; [reflexivity | discriminate]. Qed.

Lemma startswith_app_l (x s t : str) :
  startswith x s = true -> startswith x (s ++ t) = true.
Proof.
  revert s. induction x as [|c x IH]; intros s H; [reflexivity|].
  destruct s as [|d s]; [discriminate|]. simpl in *.
  apply andb_true_iff in H. destruct H as [-> H]. simpl. apply IH, H.
Qed.

Lemma contains_here (x s : str) : startswith x s = true -> contains x s = true.
Proof.
  intros H. destruct s; simpl in *; rewrite H; reflexivity.
Qed.

Lemma contains_app_l (x s t : str) :
  contains x s = true -> contains x (s ++ t) = true.
Proof.
  induction s as [|c s IH]; intros H.
  - simpl in H. rewrite orb_false_r in H. apply startswith_nil_inv in H.
    subst x. apply contains_here. reflexivity.
  - cbn [contains] in H. apply orb_true_iff in H. cbn [app contains].
    apply orb_true_iff. destruct H as [H|H].
    + left. apply (@startswith_app_l x (c :: s) t H).
    + right. apply IH, H.
Qed.

Lemma contains_app_r (x s t : str) :
  contains x t = true -> contains x (s ++ t) = true.
Proof.
  intros H. induction s as [|c s IH]; [exact H|].
  cbn [app contains]. rewrite IH. apply orb_true_r.
Qed.

Lemma contains_refl (x : str) : contains x x = true.
Proof.
  apply contains_here. rewrite <- (app_nil_r x) at 2. apply startswith_app.
Qed.

Lemma str_eqb_eq (a b : str) : str_eqb a b = true <-> a = b.
Proof.
  unfold str_eqb. destruct (list_eq_dec ascii_dec a b); split; congruence.
Qed.

Lemma count_where_users (u : str) (messages : list message) :
  count_where (str_eqb u) (map user messages) = messages_of u messages.
Proof.
  unfold count_where, messages_of.
  induction messages as [|m messages IH]; simpl; [reflexivity|].
  destruct (str_eqb u (user m)); simpl; rewrite IH; reflexivity.
Qed.

Lemma messages_of_stranger (u : str) (messages : list message) :
  ~ In u (map user messages) -> messages_of u messages = 0.
Proof.
  unfold messages_of. induction messages as [|m messages IH]; simpl;
    [reflexivity|].
  intros H. destruct (str_eqb u (user m)) eqn:E.
  - apply str_eqb_eq in E. exfalso. apply H. left. symmetry. exact E.
  - apply IH. intros Hin. apply H. right. exact Hin.
Qed.

Section Channel.

Context {services : LangChain} {sets : PySet} {client : SlackClient}.

(** X11.  Over sets that enumerate their elements, the activity report
    of a channel with messages is always produced, without any call to
    the outside and without touching the bot, and the author it names as
    most active wrote at least as many of the messages as anyone. *)
Theorem activity_names_a_most_active_author (channel_id : str)
  (messages : list message) (time_filter : str) (self : slackbot) :
  lawful sets -> messages <> [] ->
  exists report u,
    _analyze_activity channel_id messages time_filter self
    = (Ok report, self, [])
    /\ In u (map user messages)
    /\ (forall v, messages_of v messages <= messages_of u messages)
    /\ contains (py "Most active: *" ++ u ++ py "*") report = true
    /\ contains (py "*" ++ str_of_nat (length messages) ++ py "* total messages")
                report = true.
Proof.
  intros [Hstr Hint] Hne.
  destruct messages as [|m0 rest]; [congruence|].
  set (messages := m0 :: rest) in *.
  unfold _analyze_activity. fold messages.
  change (match messages with [] => ?a | _ :: _ => ?b end) with b.
  set (users := map user messages).
  set (hours := map (fun m => hour (timestamp m)) messages).
  assert (Husers : iter_str users <> []).
  { intros E. assert (H : In (user m0) (iter_str users))
      by (apply Hstr; left; reflexivity).
    rewrite E in H. exact H. }
  assert (Hhours : iter_int hours <> []).
  { intros E. assert (H : In (hour (timestamp m0)) (iter_int hours))
      by (apply Hint; left; reflexivity).
    rewrite E in H. exact H. }
  destruct (py_max_some (fun u => count_where (str_eqb u) users) Husers)
    as [u Eu].
  destruct (py_max_some (fun h => count_where (Nat.eqb h) hours) Hhours)
    as [h Eh].
  rewrite Eu, Eh.
  apply py_max_spec in Eu. destruct Eu as [Hin Hmax].
  eexists _, u. split; [reflexivity|].
  split; [apply Hstr, Hin|]. split.
  - intros v. rewrite Forall_forall in Hmax.
    destruct (in_dec (list_eq_dec ascii_dec) v users) as [Hv|Hv].
    + specialize (Hmax v (proj2 (Hstr users v) Hv)). cbv beta in Hmax.
      unfold users in Hmax. rewrite !count_where_users in Hmax. exact Hmax.
    + rewrite (@messages_of_stranger v messages Hv). apply Nat.le_0_l.
  - cbn [join]. split; apply contains_app_l.
    + do 8 apply contains_app_r. apply contains_app_l.
      apply contains_app_r. apply contains_refl.
    + do 4 apply contains_app_r. apply contains_app_l.
      apply contains_app_r. apply contains_refl.
Qed.

Lemma collect_messages_calls (raw : list raw_message) (self : slackbot) :
  Forall slack_call (calls (collect_messages raw self)).
Proof.
  induction raw as [|msg raw IH]; cbn [collect_messages]; [constructor|].
  destruct (raw_text msg) as [t|]; [|exact IH].
  destruct (truthy (strip t)); [|exact IH].
  unfold bind.
  pose proof (@ChannelFacts._get_user_info_final client
                match raw_user msg with Some u => u | None => py "Unknown" end
                self) as Hu.
  assert (Hc : Forall slack_call
                 (calls (_get_user_info
                           match raw_user msg with
                           | Some u => u
                           | None => py "Unknown"
                           end self))).
  { unfold _get_user_info. destruct (str_eqb _ _); [constructor|].
    unfold bind, emit, calls.
    destruct (users_info _) as [[d|]|e]; simpl; repeat constructor. }
  destruct (_get_user_info _ self) as [[u s1] l1].
  unfold final in Hu. simpl in Hu. subst s1.
  destruct (collect_messages raw self) as [[others s2] l2].
  unfold calls in *. simpl in *. rewrite app_nil_r.
  apply Forall_app. split; assumption.
Qed.

Lemma _get_channel_messages_shape (channel_id time_filter : str)
  (self : slackbot) :
  final (_get_channel_messages channel_id time_filter self) = self
  /\ Forall slack_call (calls (_get_channel_messages channel_id time_filter self)).
Proof.
  unfold _get_channel_messages, bind, get, emit, ret.
  destruct (slack_client self); cbn [negb]; [|split; [reflexivity|constructor]].
  destruct channel_id as [|c cid]; cbn [truthy negb];
    [split; [reflexivity|constructor]|].
  destruct (conversations_history (c :: cid) time_filter) as [raw|e].
  - destruct (@ChannelFacts.collect_messages_spec client raw self) as (Hf & _ & _).
    pose proof (collect_messages_calls raw self) as Hc.
    destruct (collect_messages raw self) as [[collected s1] l1].
    unfold final, calls in *. simpl in *. subst s1. split; [reflexivity|].
    constructor; [exact I|]. rewrite app_nil_r. exact Hc.
  - unfold final, calls. simpl. split; [reflexivity|]. repeat constructor.
Qed.

(** X12.  A channel command for which no readable message could be
    fetched is answered with one of two fixed sentences; neither the
    chain nor the model is called and the bot stays as it was. *)
Theorem channel_command_without_messages (now : datetime) (cmd : command)
  (self : slackbot) :
  (forall m ms,
     value (_get_channel_messages (channel_id cmd) (time_filter cmd) self)
     <> Ok (m :: ms)) ->
  let r := _handle_channel_command now cmd self in
  (value r = no_access \/ value r = channel_error)
  /\ final r = self
  /\ Forall slack_call (calls r).
Proof.
  intros Hnone r. subst r. unfold _handle_channel_command, bind.
  destruct (_get_channel_messages_shape (channel_id cmd) (time_filter cmd) self)
    as [Hf Hc].
  destruct (_get_channel_messages (channel_id cmd) (time_filter cmd) self)
    as [[got s1] l1].
  unfold final, value, calls in *. simpl in *. subst s1.
  destruct got as [[|m ms]|e]; simpl.
  - rewrite app_nil_r. auto.
  - exfalso. apply (Hnone m ms). reflexivity.
  - rewrite app_nil_r. auto.
Qed.

Lemma strip_nonblank (s : str) (c : ascii) :
  In c s -> isspace c = false -> strip s <> [].
Proof.
  intros Hin Hc. apply in_split in Hin. destruct Hin as (pre & post & ->).
  unfold strip, rstrip.
  destruct (@ChannelCommandParser.lstrip_keeps pre c post Hc) as [pre' ->].
  rewrite rev_app_distr. simpl rev. rewrite <- app_assoc. simpl app.
  destruct (@ChannelCommandParser.lstrip_keeps (rev post) c (rev pre') Hc)
    as [post' ->].
  rewrite rev_app_distr. simpl. intros E.
  apply app_eq_nil in E. destruct E as [E _].
  apply app_eq_nil in E. destruct E as [_ E]. discriminate E.
Qed.

Lemma summary_prompt_not_blank (time_filter message_text : str) :
  strip (summary_prompt time_filter message_text) <> [].
Proof.
  apply (@strip_nonblank _ "P"%char); [|reflexivity].
  unfold summary_prompt. cbn [join].
  apply in_or_app. right. apply in_or_app. right.
  apply in_or_app. left. apply in_or_app. right.
  apply in_or_app. left. left. reflexivity.
Qed.

(** X13.  Summarising a channel that has messages goes through the
    router like a question of the user: the prompt of the summary, with
    the transcript in it, becomes a turn of the conversation history and
    its classification becomes the last classification. *)
Theorem summary_is_recorded_as_a_turn (now : datetime) (channel_id : str)
  (messages : list message) (time_filter : str) (self : slackbot)
  (bot : chatbot) :
  rag_chatbot self = Some bot -> RAGChatbot.is_ready bot = true ->
  messages <> [] ->
  let prompt := summary_prompt time_filter
                  (_format_messages_for_analysis messages) in
  let summary := value (ask now prompt bot) in
  let qt := classify_query bot prompt in
  let r := _summarize_channel now channel_id messages time_filter self in
  value r
  = Ok (py "📊 *Channel Summary* (" ++ time_filter ++ py "):"
          ++ newline ++ newline ++ summary ++ newline ++ newline
          ++ py "_Analyzed " ++ str_of_nat (length messages) ++ py " messages_")
  /\ rag_chatbot (final r)
     = Some (set_last_query_type
               (add_to_history now prompt summary qt bot) qt).
Proof.
  intros Hbot Hready Hne prompt summary qt r. subst r.
  destruct messages as [|m0 rest]; [congruence|].
  unfold _summarize_channel, bind, on_chatbot. rewrite Hbot.
  fold prompt.
  pose proof (@RouterFacts.ask_routed services sets now prompt bot Hready
                (summary_prompt_not_blank _ _)) as Hask.
  cbv zeta in Hask. fold qt in Hask.
  subst summary. rewrite Hask.
  unfold value, final. cbn [fst snd]. split; reflexivity.
Qed.

(** X14.  A blank message sent to a ready bot is answered with the
    invitation to ask something: it is no channel command, it is not
    recorded, and nothing outside is called. *)
Theorem blank_message_through_the_bot (now : datetime) (question : str)
  (self : slackbot) (bot : chatbot) :
  SlackRAGBot.is_ready self = true ->
  rag_chatbot self = Some bot -> RAGChatbot.is_ready bot = true ->
  forallb isspace question = true ->
  get_answer now question self = (please_ask, self, []).
Proof.
  intros Hready Hbot Hbready Hblank.
  assert (Hparse : _parse_channel_command question = None).
  { apply ChannelCommandParser.parse_none_iff_no_reference.
    intros (pre & t & post & (id & _ & _ & ->) & E).
    rewrite forallb_forall in Hblank.
    assert (H : isspace "<"%char = true).
    { apply Hblank. rewrite E. apply in_or_app. right. left. reflexivity. }
    discriminate H. }
  unfold get_answer, bind, get, on_chatbot.
  rewrite Hready, Hparse. cbn [negb]. cbv beta iota. rewrite Hbot.
  unfold ask, bind, get, ret. rewrite Hbready.
  rewrite (@Asking.strip_blank question Hblank). cbn.
  destruct self as [b r c]. simpl in *. subst b. reflexivity.
Qed.

End Channel.

Lemma first_seen_lawful : lawful Sample.first_seen.
Proof.
  split; intros l x; simpl; apply nodup_In.
Qed.

Lemma activity_names_a_most_active_author_witness :
  let sets := Sample.first_seen in
  exists report u,
    _analyze_activity (py "C123") Sample.long_messages (py "today")
      Sample.slack_fresh
    = (Ok report, Sample.slack_fresh, [])
    /\ In u (map user Sample.long_messages)
    /\ (forall v, messages_of v Sample.long_messages
                  <= messages_of u Sample.long_messages)
    /\ contains (py "Most active: *" ++ u ++ py "*") report = true
    /\ contains (py "*" ++ str_of_nat (length Sample.long_messages)
                   ++ py "* total messages") report = true.
Proof.
  intros sets.
  apply (@activity_names_a_most_active_author sets (py "C123")
           Sample.long_messages (py "today") Sample.slack_fresh).
  - exact first_seen_lawful.
  - discriminate.
Defined.

Lemma channel_command_without_messages_witness :
  let services := Sample.silent_chain in
  let sets := Sample.first_seen in
  let client := Sample.no_slack in
  let r := _handle_channel_command 7
             (Command (py "C123") (py "summarize") (py "today")
                      (py "<#C123|> summarize"))
             Sample.slack_fresh in
  (value r = no_access \/ value r = channel_error)
  /\ final r = Sample.slack_fresh
  /\ Forall slack_call (calls r).
Proof.
  intros services sets client.
  apply (@channel_command_without_messages services sets client 7
           (Command (py "C123") (py "summarize") (py "today")
                    (py "<#C123|> summarize"))
           Sample.slack_fresh).
  intros m ms. vm_compute. discriminate.
Defined.

Lemma summary_is_recorded_as_a_turn_witness :
  let services := Sample.silent_chain in
  let sets := Sample.first_seen in
  exists bot',
    rag_chatbot (final (_summarize_channel 7 (py "C123")
                          [Sample.huge_message] (py "today")
                          Sample.slack_fresh))
    = Some bot'
    /\ length (conversation_history bot') = 1.
Proof.
  intros services sets.
  eexists. split.
  - apply (@summary_is_recorded_as_a_turn services sets 7 (py "C123")
             [Sample.huge_message] (py "today") Sample.slack_fresh Sample.fresh);
      [reflexivity | reflexivity | discriminate].
  - vm_compute. reflexivity.
Defined.

Lemma blank_message_through_the_bot_witness :
  let services := Sample.silent_chain in
  let sets := Sample.first_seen in
  let client := Sample.no_slack in
  get_answer 7 (py "   ") Sample.slack_fresh
  = (please_ask, Sample.slack_fresh, []).
Proof.
  intros services sets client.
  apply (@blank_message_through_the_bot services sets client 7 (py "   ")
           Sample.slack_fresh Sample.fresh); reflexivity.
Defined.

End BotFacts.

(** * Properties of the handlers *)

Module HandlerFacts.

Import RAGChatbot SlackRAGBot SlackHandlers Props Laws.
Local Open Scope py_scope.

Section Handlers.

Context {services : LangChain} {sets : PySet} {client : SlackClient}
        {gateway : Gateway}.

Lemma status_has_no_loaded_documents (chatbot : chatbot) :
  PyDict.getitem (get_status chatbot) (py "loaded_documents")
  = Raise (py "'loaded_documents'")
  /\ PyDict.getitem (get_status chatbot) (py "documents")
     = Ok (PyDict.VList (loaded_documents chatbot))
  /\ PyDict.getitem (get_status chatbot) (py "document_count")
     = Ok (PyDict.VInt (length (loaded_documents chatbot))).
Proof.
  repeat split.
Qed.

Lemma status_text_of_raises (b : slackbot) :
  exists e, forall st, status_text_of b st = (Raise e, st, []).
Proof.
  unfold status_text_of. destruct (rag_chatbot b) as [chatbot|].
  - destruct (status_has_no_loaded_documents chatbot) as (-> & _ & ->).
    eexists. reflexivity.
  - eexists. reflexivity.
Qed.

(** X15.  The status request of a ready bot is never answered with the
    status: the handler asks the status dictionary for the key
    "loaded_documents", which [get_status] files under "documents", and
    so always ends in the sentence for a failure. *)
Theorem status_of_a_ready_bot_is_trouble (message : slack_event)
  (st : hstate) (b : slackbot) :
  bot st = Some b -> SlackRAGBot.is_ready b = true ->
  handle_status message st = say status_trouble st.
Proof.
  intros Hbot Hready.
  destruct (status_text_of_raises b) as [e He].
  unfold handle_status, try_except, bindE, bind, get, ready_bot.
  rewrite Hbot, Hready, He. cbn [ret].
  destruct (say status_trouble st) as [[r st'] l]. reflexivity.
Qed.

Lemma say_cases (text : str) (st : hstate) :
  (exists e, say text st = (Raise e, st, []))
  \/ say text st = (Ok tt, HState (bot st) (outbox st ++ [text]), []).
Proof.
  unfold say. destruct (say_fails text); eauto.
Qed.

(** Saying something, and saying sorry if that fails. *)
Lemma say_or_sorry (text sorry : str) (st : hstate) :
  exists st',
    try_except (say text)
      (fun _ => try_except (say sorry) (fun _ => retE tt)) st
    = (Ok tt, st', [])
    /\ bot st' = bot st /\ at_most_one_more st st'.
Proof.
  unfold try_except, bind, retE, ret, at_most_one_more.
  destruct (say_cases text st) as [[e ->] | ->].
  - destruct (say_cases sorry st) as [[e' ->] | ->].
    + exists st. auto.
    + eexists. repeat split. right. eexists. reflexivity.
  - eexists. repeat split. right. eexists. reflexivity.
Qed.

(** Asking the bot and posting its answer, and saying sorry if the
    posting fails. *)
Lemma answer_or_sorry (now : datetime) (b : slackbot) (question prefix sorry : str)
  (st : hstate) :
  exists st' l,
    try_except
      (bind (on_bot b (get_answer now question))
            (fun answer => say (prefix ++ answer)))
      (fun _ => try_except (say sorry) (fun _ => retE tt)) st
    = (Ok tt, st', l)
    /\ at_most_one_more st st'.
Proof.
  unfold try_except, bind, on_bot, retE, ret, at_most_one_more.
  destruct (get_answer now question b) as [[answer b'] l].
  destruct (say_cases (prefix ++ answer) (HState (Some b') (outbox st)))
    as [[e ->] | ->].
  - destruct (say_cases sorry (HState (Some b') (outbox st))) as [[e' ->] | ->].
    + eexists _, _. split; [reflexivity|]. left. reflexivity.
    + eexists _, _. split; [reflexivity|]. right. eexists. reflexivity.
  - eexists _, _. split; [reflexivity|]. right. eexists. reflexivity.
Qed.

Lemma bindE_retE {S A B} (a : A) (k : A -> M S (outcome B)) (st : S) :
  bindE (retE a) k st = k a st.
Proof.
  unfold bindE, bind, retE, ret. destruct (k a st) as [[r s] l]. reflexivity.
Qed.

Lemma bind_get {S A} (k : S -> M S A) (st : S) : bind get k st = k st st.
Proof.
  unfold bind, get. destruct (k st st) as [[r s] l]. reflexivity.
Qed.

Lemma bindE_raise {S A B} (e : str) (k : A -> M S (outcome B)) (st : S) :
  bindE (ret (Raise e)) k st = ret (Raise e) st.
Proof. reflexivity. Qed.

Lemma try_except_raise {S A} (e : str) (h : str -> M S (outcome A)) (st : S) :
  try_except (ret (Raise e)) h st = h e st.
Proof.
  unfold try_except, bind, ret. destruct (h e st) as [[r s] l]. reflexivity.
Qed.

(** Saying something, and letting it pass if that fails. *)
Lemma say_or_pass (text : str) (st : hstate) :
  exists st',
    try_except (say text) (fun _ => retE tt) st = (Ok tt, st', [])
    /\ bot st' = bot st /\ at_most_one_more st st'.
Proof.
  unfold try_except, bind, retE, ret, at_most_one_more.
  destruct (say_cases text st) as [[e ->] | ->].
  - exists st. auto.
  - eexists. repeat split. right. eexists. reflexivity.
Qed.

Lemma try_except_ext {S A} (c c' : M S (outcome A))
  (h : str -> M S (outcome A)) (st : S) :
  c st = c' st -> try_except c h st = try_except c' h st.
Proof.
  intros E. unfold try_except, bind. rewrite E. reflexivity.
Qed.

(** X16.  The handler of direct messages posts at most one message and
    does not raise when the message names its user; when the message
    has no user, the handler raises and posts nothing. *)
Theorem direct_message_replies_at_most_once (now : datetime)
  (message : slack_event) (st : hstate) :
  (ev_user message = None ->
   exists e, handle_direct_message now message st = (Raise e, st, []))
  /\ (forall user, ev_user message = Some user ->
      exists st' l,
        handle_direct_message now message st = (Ok tt, st', l)
        /\ at_most_one_more st st').
Proof.
  split.
  - intros Hu. unfold handle_direct_message. rewrite Hu. eexists. reflexivity.
  - intros user Hu. unfold handle_direct_message. rewrite Hu.
    destruct (ev_text message) as [raw|]; unfold key_of.
    + erewrite try_except_ext by apply bindE_retE. cbv beta zeta.
      destruct (existsb (str_eqb (lower (strip raw))) reserved).
      { exists st, []. split; [reflexivity | left; reflexivity]. }
      destruct (truthy (strip raw)); cbn [negb].
      * erewrite try_except_ext by apply bind_get.
        destruct (ready_bot st) as [b|].
        -- apply answer_or_sorry.
        -- destruct (say_or_sorry admin_not_ready
                       (at_user user ++ sorry_error) st)
             as (st' & E & _ & Hone).
           exists st', []. split; assumption.
      * destruct (say_or_sorry ask_specific
                    (at_user user ++ sorry_error) st)
          as (st' & E & _ & Hone).
        exists st', []. split; assumption.
    + erewrite try_except_ext by apply bindE_raise.
      rewrite try_except_raise.
      destruct (say_or_pass (at_user user ++ sorry_error) st)
        as (st' & E & _ & Hone).
      exists st', []. split; assumption.
Qed.

(** *** Mentions *)

Lemma split_mention_after (head q : str) :
  forallb not_close head = true -> split_mention (head ++ ">"%char :: q) = q.
Proof.
  intros H. unfold split_mention.
  assert (E : after_first_gt (head ++ ">"%char :: q) = Some q).
  { induction head as [|c head IH]; [reflexivity|].
    simpl in H. apply andb_true_iff in H. destruct H as [Hc H].
    unfold not_close in Hc. apply negb_true_iff in Hc.
    cbn [app after_first_gt]. rewrite Hc. apply IH, H. }
  rewrite E. reflexivity.
Qed.

(** The handler of the exceptions of [handle_mention]. *)
Lemma mention_handler_is_quiet (event : slack_event) (st : hstate) :
  exists st',
    try_except
      (user <-- key_of (ev_user event) "user" ;;
       say (at_user user ++ py "Sorry, I encountered an error. Please try again!"))
      (fun _ => retE tt) st
    = (Ok tt, st', [])
    /\ at_most_one_more st st'.
Proof.
  destruct (ev_user event) as [user|]; unfold key_of.
  - erewrite try_except_ext by apply bindE_retE.
    destruct (say_or_pass
                (at_user user ++ py "Sorry, I encountered an error. Please try again!")
                st) as (st' & E & _ & Hone).
    exists st'. split; assumption.
  - erewrite try_except_ext by apply bindE_raise.
    rewrite try_except_raise. exists st. split; [reflexivity|].
    left. reflexivity.
Qed.

Lemma say_then (text : str) (h : str -> M hstate (outcome unit)) (st : hstate) :
  (forall e s, exists s', h e s = (Ok tt, s', []) /\ at_most_one_more s s') ->
  exists st',
    try_except (say text) h st = (Ok tt, st', []) /\ at_most_one_more st st'.
Proof.
  intros Hh. unfold try_except, bind, ret.
  destruct (say_cases text st) as [[e ->] | ->].
  - destruct (Hh e st) as (s' & -> & Hone). exists s'. split; [reflexivity|].
    exact Hone.
  - eexists. split; [reflexivity|]. right. eexists. reflexivity.
Qed.

Lemma answer_then (now : datetime) (b : slackbot) (question prefix : str)
  (h : str -> M hstate (outcome unit)) (st : hstate) :
  (forall e s, exists s', h e s = (Ok tt, s', []) /\ at_most_one_more s s') ->
  exists st' l,
    try_except
      (bind (on_bot b (get_answer now question))
            (fun answer => say (prefix ++ answer))) h st
    = (Ok tt, st', l)
    /\ at_most_one_more st st'.
Proof.
  intros Hh. unfold try_except, bind, on_bot, ret.
  destruct (get_answer now question b) as [[answer b'] l].
  destruct (say_cases (prefix ++ answer) (HState (Some b') (outbox st)))
    as [[e ->] | ->].
  - destruct (Hh e (HState (Some b') (outbox st))) as (s' & -> & Hone).
    eexists _, _. split; [reflexivity|]. exact Hone.
  - eexists _, _. split; [reflexivity|]. right. eexists. reflexivity.
Qed.

(** X17.  The handler of mentions never raises, whatever the event holds
    and whatever Slack does with the reply, and it posts at most one
    message. *)
Theorem mention_never_raises (now : datetime) (event : slack_event)
  (st : hstate) :
  exists st' l,
    handle_mention now event st = (Ok tt, st', l)
    /\ at_most_one_more st st'.
Proof.
  unfold handle_mention.
  set (h := fun _ : str => try_except _ _).
  assert (Hh : forall e s, exists s',
               h e s = (Ok tt, s', []) /\ at_most_one_more s s')
    by (intros e s; apply mention_handler_is_quiet).
  destruct (ev_text event) as [text|]; unfold key_of.
  - erewrite try_except_ext by apply bindE_retE. cbv beta.
    destruct (ev_user event) as [user|].
    + erewrite try_except_ext by apply bindE_retE. cbv beta zeta.
      destruct (truthy (strip (split_mention text))).
      * erewrite try_except_ext by apply bind_get.
        destruct (ready_bot st) as [b|].
        -- apply answer_then, Hh.
        -- destruct (@say_then (at_user user
                       ++ py "Sorry, the document system is not ready yet. Please contact the admin.")
                       h st Hh) as (st' & E & Hone).
           exists st', []. split; assumption.
      * destruct (@say_then (at_user user ++ py "👋 Hi, you can ask me any question!")
                    h st Hh) as (st' & E & Hone).
        exists st', []. split; assumption.
    + erewrite try_except_ext by apply bindE_raise.
      rewrite try_except_raise.
      destruct (Hh (py "'" ++ py "user" ++ py "'") st) as (s' & E & Hone).
      exists s', []. split; assumption.
  - erewrite try_except_ext by apply bindE_raise.
    rewrite try_except_raise.
    destruct (Hh (py "'" ++ py "text" ++ py "'") st) as (s' & E & Hone).
    exists s', []. split; assumption.
Qed.

(** X18.  A mention is answered with what the bot says to the text that
    follows the first closing angle bracket, trimmed, and the reply is
    addressed to the user who wrote the mention. *)
Theorem mention_asks_what_follows (now : datetime) (event : slack_event)
  (st : hstate) (user head q : str) (b : slackbot) :
  ev_user event = Some user ->
  ev_text event = Some (head ++ ">"%char :: q) ->
  forallb not_close head = true ->
  strip q <> [] ->
  ready_bot st = Some b ->
  let r := get_answer now (strip q) b in
  say_fails (at_user user ++ value r) = None ->
  handle_mention now event st
  = (Ok tt, HState (Some (final r)) (outbox st ++ [at_user user ++ value r]),
     calls r).
Proof.
  intros Hu Ht Hhead Hq Hb r Hsay. subst r.
  unfold handle_mention. rewrite Hu, Ht. unfold key_of.
  erewrite try_except_ext by apply bindE_retE. cbv beta.
  erewrite try_except_ext by apply bindE_retE. cbv beta zeta.
  rewrite (@split_mention_after head q Hhead).
  destruct (strip q) as [|c t] eqn:Eq; [congruence|]. cbn [truthy].
  erewrite try_except_ext by apply bind_get. rewrite Hb.
  unfold try_except, bind, on_bot, say, ret.
  destruct (get_answer now (c :: t) b) as [[answer b'] l].
  unfold value, final, calls in *. cbn [fst snd] in *. rewrite Hsay.
  cbn [bot outbox]. rewrite !app_nil_r. reflexivity.
Qed.

End Handlers.

Lemma direct_message_replies_at_most_once_witness :
  let services := Sample.silent_chain in
  let sets := Sample.first_seen in
  let client := Sample.no_slack in
  let gateway := Sample.reliable in
  exists st' l,
    handle_direct_message 7 (SlackEvent (Some (py "U1")) (Some (py " HELP ")))
      Sample.handlers_fresh
    = (Ok tt, st', l)
    /\ at_most_one_more Sample.handlers_fresh st'.
Proof.
  intros services sets client gateway.
  apply (proj2 (@direct_message_replies_at_most_once services sets client
                  gateway 7 (SlackEvent (Some (py "U1")) (Some (py " HELP ")))
                  Sample.handlers_fresh) (py "U1")).
  reflexivity.
Defined.

Lemma mention_asks_what_follows_witness :
  let services := Sample.silent_chain in
  let sets := Sample.first_seen in
  let client := Sample.no_slack in
  let gateway := Sample.reliable in
  handle_mention 7
    (SlackEvent (Some (py "U1"))
                (Some (py "<@NESTIE" ++ ">"%char :: py " What does the policy document say?")))
    Sample.handlers_fresh
  = (Ok tt,
     HState (Some (final (get_answer 7 (py "What does the policy document say?")
                            Sample.slack_fresh)))
            [at_user (py "U1") ++ rephrase],
     [RagChainCall (py "What does the policy document say?")]).
Proof.
  intros services sets client gateway.
  rewrite (@mention_asks_what_follows services sets client gateway 7
             (SlackEvent (Some (py "U1"))
                (Some (py "<@NESTIE" ++ ">"%char
                         :: py " What does the policy document say?")))
             Sample.handlers_fresh (py "U1") (py "<@NESTIE")
             (py " What does the policy document say?") Sample.slack_fresh);
    try reflexivity.
  vm_compute. discriminate.
Defined.

Lemma status_of_a_ready_bot_is_trouble_witness :
  let gateway := Sample.reliable in
  handle_status (SlackEvent (Some (py "U1")) (Some (py "status")))
    Sample.handlers_fresh
  = (Ok tt, HState (Some Sample.slack_fresh) [status_trouble], []).
Proof.
  intros gateway.
  rewrite (@status_of_a_ready_bot_is_trouble gateway
             (SlackEvent (Some (py "U1")) (Some (py "status")))
             Sample.handlers_fresh Sample.slack_fresh);
    reflexivity.
Defined.

End HandlerFacts.

(** * Properties of the document processor *)

Module ProcessorFacts.

Import DocumentProcessor Laws.

Section Processor.

Context {indexing : Indexing}.

Lemma load_all_from (paths : list (str * str)) (cs : list document)
  (ns : list str) :
  fold_left
    (fun acc item =>
       let '(all_chunks, successful_docs) := acc in
       let '(doc_name, doc_path) := item in
       match load_single_document doc_name doc_path with
       | [] => (all_chunks, successful_docs)
       | chunks => (all_chunks ++ chunks, successful_docs ++ [doc_name])
       end)
    paths (cs, ns)
  = (cs ++ flat_map chunks_of paths, ns ++ map fst (filter gave_chunks paths)).
Proof.
  revert cs ns. induction paths as [|[n p] paths IH]; intros cs ns.
  - simpl. rewrite !app_nil_r. reflexivity.
  - cbn [fold_left flat_map filter]. unfold gave_chunks at 1, chunks_of at 1.
    cbn [fst snd].
    destruct (load_single_document n p) as [|c chunks] eqn:E.
    + rewrite IH. reflexivity.
    + rewrite IH. cbn [map fst]. rewrite <- !app_assoc. reflexivity.
Qed.

Lemma no_chunks_iff_no_documents (paths : list (str * str)) :
  flat_map chunks_of paths = [] <-> map fst (filter gave_chunks paths) = [].
Proof.
  induction paths as [|[n p] paths IH]; [simpl; tauto|].
  cbn [flat_map filter].
  replace (gave_chunks (n, p))
    with (match chunks_of (n, p) with [] => false | _ :: _ => true end)
    by reflexivity.
  destruct (chunks_of (n, p)) as [|c chunks]; [exact IH|].
  simpl. split; discriminate.
Qed.

(** X19.  [load_all_documents] returns the chunks of all the configured
    documents in the configured order, and the names of exactly those
    documents that gave at least one chunk, in that order too; it has no
    chunks exactly when it has no names. *)
Theorem load_all_documents_spec (self : processor) :
  load_all_documents self
  = (flat_map chunks_of (document_paths self),
     map fst (filter gave_chunks (document_paths self)))
  /\ (fst (load_all_documents self) = []
      <-> snd (load_all_documents self) = []).
Proof.
  assert (E : load_all_documents self
              = (flat_map chunks_of (document_paths self),
                 map fst (filter gave_chunks (document_paths self))))
    by (unfold load_all_documents; rewrite load_all_from; reflexivity).
  split; [exact E|]. rewrite E. apply no_chunks_iff_no_documents.
Qed.

Lemma gave_chunks_exists (item : str * str) :
  gave_chunks item = true -> path_exists (snd item) = true.
Proof.
  unfold gave_chunks, load_single_document.
  destruct (path_exists (snd item)); [reflexivity | discriminate].
Qed.

(** X20.  [setup_documents] returns [True] exactly when it leaves a
    usable vector database behind.  When it returns [False] the list of
    loaded documents is untouched.  When it returns [True] that list is
    either all the configured names (an existing database was found,
    whether or not the files are there) or names of configured documents
    whose files exist; the configured paths never change. *)
Theorem setup_documents_spec (self : processor) :
  let ok := fst (setup_documents self) in
  let after := snd (setup_documents self) in
  ok = has_store (vectorstore after)
  /\ (ok = false -> loaded_documents after = loaded_documents self)
  /\ (ok = true ->
      (has_store load_existing_database = true
       /\ loaded_documents after = map fst (document_paths self))
      \/ (has_store load_existing_database = false
          /\ forall name, In name (loaded_documents after) ->
               exists path, In (name, path) (document_paths self)
                            /\ path_exists path = true))
  /\ document_paths after = document_paths self.
Proof.
  cbv zeta. unfold setup_documents.
  cbn [vectorstore set_vectorstore document_paths].
  destruct (has_store load_existing_database) eqn:Ex.
  - cbn [fst snd vectorstore set_loaded_documents set_vectorstore
         loaded_documents document_paths].
    rewrite Ex. repeat split; try discriminate. intros _. left. auto.
  - destruct (load_all_documents_spec
                (set_vectorstore self load_existing_database)) as [E _].
    rewrite E. cbn [document_paths set_vectorstore].
    destruct (flat_map chunks_of (document_paths self)) as [|c cs] eqn:Ec.
    + cbn [fst snd vectorstore set_vectorstore loaded_documents document_paths].
      rewrite Ex. repeat split; discriminate.
    + destruct (has_store (create_vector_database (c :: cs))) eqn:Ecr;
        cbn [negb fst snd vectorstore set_vectorstore set_loaded_documents
             loaded_documents document_paths]; rewrite ?Ecr.
      * repeat split; try discriminate. intros _. right.
        split; [reflexivity|]. intros name Hin.
        apply in_map_iff in Hin. destruct Hin as ([n p] & <- & Hin).
        apply filter_In in Hin. destruct Hin as [Hin Hg].
        exists p. split; [exact Hin|]. apply (@gave_chunks_exists (n, p) Hg).
      * repeat split; discriminate.
Qed.

End Processor.

Lemma setup_documents_spec_witness :
  let indexing := Sample.one_file in
  let self := Processor Sample.configured_paths [] None in
  fst (setup_documents self) = true
  /\ loaded_documents (snd (setup_documents self)) = [py "Company Culture"]
  /\ forall name, In name (loaded_documents (snd (setup_documents self))) ->
       exists path, In (name, path) (document_paths self)
                    /\ path_exists path = true.
Proof.
  intros indexing self.
  split; [reflexivity|]. split; [reflexivity|].
  destruct (@setup_documents_spec indexing self) as (_ & _ & H & _).
  destruct (H eq_refl) as [[Hex _] | [_ Hnames]].
  - discriminate Hex.
  - exact Hnames.
Defined.

End ProcessorFacts.
